(** * Hybrid Search & Organization Finder: the Streamlit client, verified

    A shallow embedding of [streamlit_app_chat_Zeyneb.py]: the two HTTP
    helpers [search_api] and [search_organizations], the submission
    handlers of the three language tabs and of the organization tab, and
    the health check of the sidebar.

    - Parsed JSON is the inductive type [json]; a Python [dict] is an
      association list in insertion order, [str] is a string of UTF-8 bytes,
      [int] is [Z] and [float] is an IEEE binary64 value ([spec_float]).
    - The remote API is a parameter [api]: it answers a request, given the
      requests issued before it (the latest first), by a response or by
      raising.
    - Python code runs in the monad [M]: it reads the requests issued so far
      (the latest first), and yields a value or an uncaught exception together with the requests
      it issued and the Streamlit elements it emitted, in order.
    - An f-string is kept as its list of parts ([fstring]); [py_format]
      turns it into the displayed text.
    - [post_search], [show_results] and [show_organizations] are blocks of
      the source, named to be stated about; the loop bodies are [render_hit],
      [render_trading] and [render_org]. *)

From Stdlib Require Import ZArith List String Ascii Bool Lia DecimalString DecimalPos.
From Stdlib Require Import Floats.SpecFloat.
Import ListNotations.
Open Scope string_scope.
Open Scope Z_scope.

(** ** Python values *)

#[local] Set Warnings "-register-all".

Inductive json : Type :=
| JNull
| JBool (b : bool)
| JInt (z : Z)
| JFloat (f : spec_float)
| JStr (s : string)
| JArr (l : list json)
| JObj (o : list (string * json)).

(** [type(v).__name__] *)
Definition py_type_name (v : json) : string :=
  match v with
  | JNull => "NoneType"
  | JBool _ => "bool"
  | JInt _ => "int"
  | JFloat _ => "float"
  | JStr _ => "str"
  | JArr _ => "list"
  | JObj _ => "dict"
  end.

(** [bool(v)] *)
Definition py_truthy (v : json) : bool :=
  match v with
  | JNull => false
  | JBool b => b
  | JInt z => negb (z =? 0)
  | JFloat (S754_zero _) => false
  | JFloat _ => true
  | JStr s => negb (s =? "")%string
  | JArr l => match l with [] => false | _ :: _ => true end
  | JObj o => match o with [] => false | _ :: _ => true end
  end.

(** [v != s] for a [str] [s] *)
Definition py_ne_str (v : json) (s : string) : bool :=
  match v with
  | JStr t => negb (t =? s)%string
  | _ => true
  end.

Fixpoint dict_lookup (k : string) (o : list (string * json)) : option json :=
  match o with
  | [] => None
  | (k', v) :: o' => if (k' =? k)%string then Some v else dict_lookup k o'
  end.

(** [d.get(k, default)] on a dict *)
Definition dict_get (o : list (string * json)) (k : string) (default : json) : json :=
  match dict_lookup k o with
  | Some v => v
  | None => default
  end.

Definition string_of_Z (z : Z) : string := NilZero.string_of_int (Z.to_int z).

(** ** Exceptions *)

Inductive exn_class :=
| ExTimeout            (* requests.exceptions.Timeout and its subclasses *)
| ExConnectionError
| ExHTTPError
| ExJSONDecodeError    (* requests.exceptions.JSONDecodeError, a RequestException *)
| ExRequestException   (* any other requests.exceptions.RequestException *)
| ExAttributeError
| ExTypeError
| ExValueError
| ExOverflowError
| ExRecursionError
| ExOther.             (* any other subclass of Exception *)

Record exn := mk_exn { exn_cls : exn_class; exn_msg : string }.

(** [isinstance(e, requests.exceptions.Timeout)] *)
Definition is_Timeout (e : exn) : bool :=
  match exn_cls e with
  | ExTimeout => true
  | _ => false
  end.

(** [isinstance(e, requests.exceptions.RequestException)] *)
Definition is_RequestException (e : exn) : bool :=
  match exn_cls e with
  | ExTimeout | ExConnectionError | ExHTTPError | ExJSONDecodeError
  | ExRequestException => true
  | _ => false
  end.

Inductive result (A : Type) :=
| Ok (a : A)
| Exc (e : exn).
Arguments Ok {A} a.
Arguments Exc {A} e.

(** ** HTTP *)

Record request := mk_request {
  req_method : string;
  req_url : string;
  req_json : json;
  req_headers : list (string * string);
  req_timeout : Z
}.

Inductive body :=
| JsonBody (v : json)
| NotJson (msg : string)    (* the text is not JSON; [msg] is the decoder's message *)
| DecoderRaises (e : exn).  (* the decoder gives up on the text with an exception
                               of its own: [ValueError] for an integer of more
                               than 4300 digits, [RecursionError] for nesting
                               too deep *)

Record response := mk_response {
  status_code : Z;
  reason : string;
  url : string;
  content : body
}.

Inductive outcome :=
| Resp (r : response)
| Raises (e : exn).

(** ** Streamlit elements *)

Inductive part :=
| Lit (s : string)   (* literal text, or a value that is a [str] by construction *)
| Val (v : json).    (* [{v}]: a replacement field without format spec *)

Definition fstring := list part.

Inductive container :=
| InTab
| InExpander (i : Z)   (* the expander of result number [i] *)
| InCol1 (i : Z)       (* its first column *)
| InCol2 (i : Z).      (* its second column *)

Inductive element :=
| EWarning (t : fstring)
| EInfo (t : fstring)
| EError (t : fstring)
| ESuccess (t : fstring)
| EMarkdown (t : fstring)
| EWrite (t : fstring)
| EExpander (label : fstring)
| ESpinner (t : fstring)
| EColumns (spec : list Z)
| EJson (v : json).

Definition widget := (container * element)%type.

(** ** The monad of the script *)

Record out (A : Type) := Out {
  res : result A;
  calls : list request;
  ui : list widget
}.
Arguments Out {A} res calls ui.
Arguments res {A} o.
Arguments calls {A} o.
Arguments ui {A} o.

Definition M (A : Type) := list request -> out A.

Definition ret {A} (a : A) : M A := fun _ => Out (Ok a) [] [].

Definition raise {A} (e : exn) : M A := fun _ => Out (Exc e) [] [].

(** The run [o], after the requests [cs] and the elements [ws] *)
Definition prefixed {A} (cs : list request) (ws : list widget) (o : out A) : out A :=
  match o with
  | Out r cs' ws' => Out r (cs ++ cs') (ws ++ ws')
  end.

Definition bind {A B} (m : M A) (k : A -> M B) : M B :=
  fun h =>
    match m h with
    | Out (Ok a) cs ws => prefixed cs ws (k a (rev cs ++ h)%list)
    | Out (Exc e) cs ws => Out (Exc e) cs ws
    end.

(** [try: m  except ...: handler]: [handler e] is [None] when no clause matches [e] *)
Definition try_except {A} (m : M A) (handler : exn -> option (M A)) : M A :=
  fun h =>
    match m h with
    | Out (Ok a) cs ws => Out (Ok a) cs ws
    | Out (Exc e) cs ws =>
        match handler e with
        | Some k => prefixed cs ws (k (rev cs ++ h)%list)
        | None => Out (Exc e) cs ws
        end
    end.

Definition emit (c : container) (e : element) : M unit :=
  fun _ => Out (Ok tt) [] [(c, e)].

Declare Scope py_scope.
Delimit Scope py_scope with py.
Notation "x <- m ;; k" := (bind m (fun x => k))
  (at level 100, m at next level, right associativity) : py_scope.
Notation "m ;;; k" := (bind m (fun _ => k))
  (at level 100, right associativity) : py_scope.
Open Scope py_scope.

(** [for x in l: body x] *)
Fixpoint for_each {A} (l : list A) (body : A -> M unit) : M unit :=
  match l with
  | [] => ret tt
  | x :: l' => body x ;;; for_each l' body
  end.

(** [enumerate(l, start)] *)
Fixpoint enumerate {A} (start : Z) (l : list A) : list (Z * A) :=
  match l with
  | [] => []
  | x :: l' => (start, x) :: enumerate (start + 1) l'
  end.

(** ** Python operations that may raise *)

(** [v.get(k, default)]: only a dict has [get] *)
Definition py_get (v : json) (k : string) (default : json) : M json :=
  match v with
  | JObj o => ret (dict_get o k default)
  | _ => raise (mk_exn ExAttributeError
                  ("'" ++ py_type_name v ++ "' object has no attribute 'get'"))
  end.

Definition is_continuation (c : ascii) : bool :=
  let n := nat_of_ascii c in ((128 <=? n) && (n <? 192))%nat.

(** The code points of a [str], each as a one-character [str]. *)
Fixpoint utf8_chars (s : string) : list string :=
  match s with
  | EmptyString => []
  | String c r =>
      match utf8_chars r with
      | String d x :: xs =>
          if is_continuation d then String c (String d x) :: xs
          else String c EmptyString :: String d x :: xs
      | l => String c EmptyString :: l
      end
  end.

(** [iter(v)], run to the end *)
Definition py_iter (v : json) : M (list json) :=
  match v with
  | JArr l => ret l
  | JObj o => ret (map (fun kv => JStr (fst kv)) o)
  | JStr s => ret (map JStr (utf8_chars s))
  | _ => raise (mk_exn ExTypeError
                  ("'" ++ py_type_name v ++ "' object is not iterable"))
  end.

(** *** [format(v, '.4f')] *)

(** [n / d] rounded to the nearest integer, ties to even ([0 <= n], [0 < d]) *)
Definition round_half_even_div (n d : Z) : Z :=
  let q := n / d in
  let r := n mod d in
  if d <? 2 * r then q + 1
  else if d =? 2 * r then (if Z.odd q then q + 1 else q)
  else q.

Fixpoint zeros (n : nat) : string :=
  match n with
  | O => ""
  | S n' => String "0" (zeros n')
  end.

(** [n] in four digits, for [0 <= n < 10000] *)
Definition pad4 (n : Z) : string :=
  let digits := string_of_Z n in
  zeros (4 - String.length digits) ++ digits.

(** A count of ten-thousandths [n >= 0] as digits with four decimals *)
Definition fixed4_digits (n : Z) : string :=
  string_of_Z (n / 10000) ++ "." ++ pad4 (n mod 10000).

Definition sign_str (s : bool) : string := if s then "-" else "".

(** [format(f, '.4f')] for a float: the exact binary value, correctly rounded *)
Definition float_fixed4 (f : spec_float) : string :=
  match f with
  | S754_zero s => sign_str s ++ "0.0000"
  | S754_infinity s => sign_str s ++ "inf"
  | S754_nan => "nan"
  | S754_finite s m e =>
      sign_str s ++
      fixed4_digits (if 0 <=? e then Z.pos m * 2 ^ e * 10000
                     else round_half_even_div (Z.pos m * 10000) (2 ^ (- e)))
  end.

(** [float(z)] for an int: the value of the nearest binary64, ties to even;
    [None] is OverflowError *)
Definition int_to_float (z : Z) : option Z :=
  let a := Z.abs z in
  let n := Z.log2 a + 1 in
  if n <=? 53 then Some z
  else
    let sh := n - 53 in
    let v := round_half_even_div a (2 ^ sh) * 2 ^ sh in
    if 2 ^ 1024 <=? v then None else Some (Z.sgn z * v).

Definition int_fixed4 (z : Z) : M string :=
  match int_to_float z with
  | Some v => ret (sign_str (v <? 0) ++ string_of_Z (Z.abs v) ++ ".0000")
  | None => raise (mk_exn ExOverflowError "int too large to convert to float")
  end.

(** [f"{v:.4f}"] *)
Definition py_format_4f (v : json) : M string :=
  match v with
  | JFloat f => ret (float_fixed4 f)
  | JInt z => int_fixed4 z
  | JBool b => int_fixed4 (if b then 1 else 0)
  | JStr _ => raise (mk_exn ExValueError
                       "Unknown format code 'f' for object of type 'str'")
  | _ => raise (mk_exn ExTypeError
                  ("unsupported format string passed to " ++ py_type_name v ++ ".__format__"))
  end.

(** *** [str.strip()] *)

Definition byte_is (c : ascii) (n : nat) : bool := (nat_of_ascii c =? n)%nat.

Definition byte_in (c : ascii) (lo hi : nat) : bool :=
  let n := nat_of_ascii c in ((lo <=? n) && (n <=? hi))%nat.

(** The whitespace code points of [str.isspace], by their UTF-8 bytes:
    U+0009-000D, U+001C-0020; U+0085, U+00A0; U+1680, U+2000-200A,
    U+2028, U+2029, U+202F, U+205F, U+3000. *)
Definition ws1 (c : ascii) : bool := byte_in c 9 13 || byte_in c 28 32.

Definition ws2 (c d : ascii) : bool :=
  byte_is c 194 && (byte_is d 133 || byte_is d 160).

Definition ws3 (c d e : ascii) : bool :=
  (byte_is c 225 && byte_is d 154 && byte_is e 128)
  || (byte_is c 226 && byte_is d 128
      && (byte_in e 128 138 || byte_in e 168 169 || byte_is e 175))
  || (byte_is c 226 && byte_is d 129 && byte_is e 159)
  || (byte_is c 227 && byte_is d 128 && byte_is e 128).

(** Drop leading whitespace, [p2] and [p3] recognising the two- and three-byte
    code points in the order the bytes are met. *)
Fixpoint strip_front (p2 : ascii -> ascii -> bool) (p3 : ascii -> ascii -> ascii -> bool)
    (s : string) : string :=
  match s with
  | String c r =>
      if ws1 c then strip_front p2 p3 r
      else
        match r with
        | String d r' =>
            if p2 c d then strip_front p2 p3 r'
            else
              match r' with
              | String e r'' => if p3 c d e then strip_front p2 p3 r'' else s
              | EmptyString => s
              end
        | EmptyString => s
        end
  | EmptyString => s
  end.

Definition string_rev (s : string) : string :=
  string_of_list_ascii (rev (list_ascii_of_string s)).

Definition py_lstrip (s : string) : string := strip_front ws2 ws3 s.

Definition py_rstrip (s : string) : string :=
  string_rev (strip_front (fun c d => ws2 d c) (fun c d e => ws3 e d c) (string_rev s)).

Definition py_strip (s : string) : string := py_rstrip (py_lstrip s).

(** *** Displayed text *)

(** [str(v)]; [repr] is the interpreter's [repr] of floats, lists and dicts. *)
Definition py_str (repr : json -> string) (v : json) : string :=
  match v with
  | JNull => "None"
  | JBool true => "True"
  | JBool false => "False"
  | JInt z => string_of_Z z
  | JStr s => s
  | _ => repr v
  end.

Definition part_text (repr : json -> string) (p : part) : string :=
  match p with
  | Lit s => s
  | Val v => py_str repr v
  end.

Definition py_format (repr : json -> string) (t : fstring) : string :=
  String.concat "" (map (part_text repr) t).

(** ** The application *)

Section App.

(** The environment variable [API_BASE_URL], when set. *)
Variable environ_API_BASE_URL : option string.

(** The remote API as the HTTP client sees it: its answer to a request,
    given the requests issued before, the latest first. *)
Variable api : list request -> request -> outcome.

Definition API_BASE_URL : string :=
  match environ_API_BASE_URL with
  | Some u => u
  | None => "https://dmitriykuramshin-demoapi.hf.space"
  end.

Definition json_headers : list (string * string) :=
  [("Content-Type", "application/json")].

(** [requests.post(url, json=payload, headers=..., timeout=timeout)] *)
Definition requests_post (url : string) (payload : json) (timeout : Z) : M response :=
  fun h =>
    let r := mk_request "POST" url payload json_headers timeout in
    match api h r with
    | Resp resp => Out (Ok resp) [r] []
    | Raises e => Out (Exc e) [r] []
    end.

(** [response.raise_for_status()] *)
Definition raise_for_status (r : response) : M unit :=
  let msg kind :=
    string_of_Z (status_code r) ++ " " ++ kind ++ " Error: " ++ reason r
      ++ " for url: " ++ url r in
  if (400 <=? status_code r) && (status_code r <? 500) then
    raise (mk_exn ExHTTPError (msg "Client"))
  else if (500 <=? status_code r) && (status_code r <? 600) then
    raise (mk_exn ExHTTPError (msg "Server"))
  else ret tt.

(** [response.json()]: requests turns the decoder's [JSONDecodeError] into
    its own, a [RequestException]; any other exception of the decoder passes
    through as it is. *)
Definition response_json (r : response) : M json :=
  match content r with
  | JsonBody v => ret v
  | NotJson msg => raise (mk_exn ExJSONDecodeError msg)
  | DecoderRaises e => raise e
  end.

Definition spelling_payload (query : string) : json :=
  JObj [("query", JStr query)].

Definition search_payload (search_query : json) (size : Z) (alpha : spec_float)
    (use_vector : bool) : json :=
  JObj [("query", search_query);
        ("size", JInt size);
        ("alpha", JFloat alpha);
        ("use_vector", JBool use_vector)].

(** The main call of [search_api], lines 64-85. [None] is returned as [JNull]. *)
Definition post_search (search_query : json) (size : Z) (use_vector : bool)
    (alpha : spec_float) (language : string) : M json :=
  let payload := search_payload search_query size alpha use_vector in
  try_except
    (response <- requests_post (API_BASE_URL ++ "/search/" ++ language) payload 30 ;;
     raise_for_status response ;;;
     response_json response)
    (fun e =>
       if is_Timeout e then
         Some (emit InTab (EError [Lit "⏱️ Request timed out. Please try again."]) ;;;
               ret JNull)
       else if is_RequestException e then
         Some (emit InTab (EError [Lit "❌ Request failed: "; Lit (exn_msg e)]) ;;;
               ret JNull)
       else None).

(** [search_api], lines 37-85: the spelling step of lines 45-62, then the
    main call. *)
Definition search_api (query : string) (size : Z) (use_vector : bool)
    (alpha : spec_float) (language : string) (use_spelling : bool) : M json :=
  search_query <-
    (if use_spelling then
       try_except
         (spell_response <-
            requests_post (API_BASE_URL ++ "/spellingcorrection")
              (spelling_payload query) 10 ;;
          if status_code spell_response =? 200 then
            spell_data <- response_json spell_response ;;
            corrected <- py_get spell_data "corrected_query" (JStr query) ;;
            if py_ne_str corrected query then
              emit InTab (EInfo [Lit "✨ Using corrected query: `"; Val corrected; Lit "`"]) ;;;
              ret corrected
            else ret (JStr query)
          else ret (JStr query))
         (fun e =>
            Some (emit InTab (EWarning [Lit "Spelling correction unavailable: ";
                                        Lit (exn_msg e)]) ;;;
                  ret (JStr query)))
     else ret (JStr query)) ;;
  post_search search_query size use_vector alpha language.

Definition organizations_payload (search_term : string) (size : Z) : json :=
  JObj [("search_term", JStr search_term);
        ("index", JStr "organizations_v3");
        ("size", JInt size)].

(** [search_organizations], lines 87-105 *)
Definition search_organizations (search_term : string) (size : Z) : M json :=
  let payload := organizations_payload search_term size in
  try_except
    (response <- requests_post (API_BASE_URL ++ "/organizations") payload 30 ;;
     raise_for_status response ;;;
     response_json response)
    (fun e =>
       if is_RequestException e then
         Some (emit InTab (EError [Lit "❌ Request failed: "; Lit (exn_msg e)]) ;;;
               ret JNull)
       else None).

(** [with st.spinner(text): body] *)
Definition st_spinner {A} (text : string) (body : M A) : M A :=
  emit InTab (ESpinner [Lit text]) ;;; body.

(** The fields ['name_<lang>_d<k>'] of a product record. *)
Definition name_field (lang : string) (depth : string) : string :=
  "name_" ++ lang ++ "_d" ++ depth.

(** One trading of a hit, lines 170-178 *)
Definition render_trading (i : Z) (t : json) : M unit :=
  trade_type <- py_get t "tradeType" (JStr "N/A") ;;
  trade_name <- py_get t "tradeName" (JStr "N/A") ;;
  emit (InCol2 i) (EWrite [Lit "• "; Val trade_name; Lit " ("; Val trade_type; Lit ")"]) ;;;
  in_vehicle <- py_get t "inVehicleId" JNull ;;
  (if py_truthy in_vehicle then
     emit (InCol2 i) (EWrite [Lit "  In: Vehicle "; Val in_vehicle])
   else ret tt) ;;;
  out_vehicle <- py_get t "outVehicleId" JNull ;;
  if py_truthy out_vehicle then
    emit (InCol2 i) (EWrite [Lit "  Out: Vehicle "; Val out_vehicle])
  else ret tt.

(** The body of the loop over the hits, lines 148-180 (and the same lines of
    the two other language tabs, with their language code). *)
Definition render_hit (lang : string) (i : Z) (hit : json) : M unit :=
  source <- py_get hit "_source" hit ;;
  code <- py_get source "code" (JStr "No Name") ;;
  name_display <- py_get source (name_field lang "4") code ;;
  emit InTab (EExpander [Lit "#"; Val (JInt i); Lit " - "; Val name_display]) ;;;
  emit (InExpander i) (EColumns [3; 1]) ;;;
  code <- py_get source "code" (JStr "N/A") ;;
  emit (InCol1 i) (EMarkdown [Lit "**Code:** `"; Val code; Lit "`"]) ;;;
  hit_score <- py_get hit "_score" JNull ;;
  score <- (if py_truthy hit_score then ret hit_score
            else py_get source "score" JNull) ;;
  (if py_truthy score then
     text <- py_format_4f score ;;
     emit (InCol1 i) (EMarkdown [Lit "**Score:** "; Lit text])
   else ret tt) ;;;
  d1 <- py_get source (name_field lang "1") (JStr "N/A") ;;
  emit (InCol1 i) (EMarkdown [Lit "**Category (D1):** "; Val d1]) ;;;
  d2 <- py_get source (name_field lang "2") (JStr "N/A") ;;
  emit (InCol1 i) (EMarkdown [Lit "**Subcategory (D2):** "; Val d2]) ;;;
  d3 <- py_get source (name_field lang "3") (JStr "N/A") ;;
  emit (InCol1 i) (EMarkdown [Lit "**Sub-subcategory (D3):** "; Val d3]) ;;;
  d4 <- py_get source (name_field lang "4") (JStr "N/A") ;;
  emit (InCol1 i) (EMarkdown [Lit "**Product (D4):** "; Val d4]) ;;;
  path <- py_get source "Path" (JStr "-") ;;
  emit (InCol1 i) (EMarkdown [Lit "**Full Path:** "; Val path]) ;;;
  tradings <- py_get source "tradings" (JArr []) ;;
  if py_truthy tradings then
    emit (InCol2 i) (EMarkdown [Lit "**Tradings:**"]) ;;;
    ts <- py_iter tradings ;;
    for_each ts (render_trading i)
  else emit (InCol2 i) (EMarkdown [Lit "*No trading info*"]).

Record search_form := mk_search_form {
  query : string;          (* st.text_input *)
  size : Z;                (* st.number_input, 1..50 *)
  alpha : spec_float;      (* st.slider, 0.0..1.0 *)
  use_vector : bool;       (* st.checkbox *)
  use_spelling : bool;     (* st.checkbox *)
  submitted : bool         (* st.form_submit_button *)
}.

(** What a language tab shows for a result, lines 140-180 *)
Definition show_results (lang : string) (result : json) : M unit :=
  if py_truthy result then
    total <- py_get result "total-hits" (JInt 0) ;;
    emit InTab (ESuccess [Lit "✅ Found "; Val total; Lit " hits"]) ;;;
    hits <- py_get result "Ranked-objects" (JArr []) ;;
    if negb (py_truthy hits) then
      emit InTab (EInfo [Lit "No results found."])
    else
      hs <- py_iter hits ;;
      for_each (enumerate 1 hs) (fun ih => render_hit lang (fst ih) (snd ih))
  else ret tt.

(** What a language tab does after its form, lines 133-180; [tab1], [tab2]
    and [tab3] are the same code for ["az"], ["en"] and ["ru"]. *)
Definition search_tab (lang : string) (f : search_form) : M unit :=
  if submitted f then
    if negb (py_truthy (JStr (py_strip (query f)))) then
      emit InTab (EWarning [Lit "⚠️ Please enter a query."])
    else
      result <- st_spinner "Searching..."
                  (search_api (query f) (size f) (use_vector f) (alpha f) lang
                     (use_spelling f)) ;;
      show_results lang result
  else ret tt.

Definition tab1 := search_tab "az".
Definition tab2 := search_tab "en".
Definition tab3 := search_tab "ru".

(** The body of the loop over the organizations, lines 350-365 *)
Definition render_org (i : Z) (org : json) : M unit :=
  name <- py_get org "name" (JStr "N/A") ;;
  emit InTab (EExpander [Lit "#"; Val (JInt i); Lit " - "; Val name]) ;;;
  emit (InExpander i) (EColumns [2; 1]) ;;;
  name <- py_get org "name" (JStr "N/A") ;;
  emit (InCol1 i) (EMarkdown [Lit "**Name:** "; Val name]) ;;;
  abbreviation <- py_get org "abbreviation" (JStr "N/A") ;;
  emit (InCol1 i) (EMarkdown [Lit "**Abbreviation:** "; Val abbreviation]) ;;;
  id <- py_get org "id" (JStr "N/A") ;;
  emit (InCol1 i) (EMarkdown [Lit "**ID:** "; Val id]) ;;;
  score <- py_get org "score" JNull ;;
  (if py_truthy score then
     text <- py_format_4f score ;;
     emit (InCol2 i) (EMarkdown [Lit "**Score:** "; Lit text])
   else ret tt) ;;;
  additional_info <- py_get org "additional_info" JNull ;;
  if py_truthy additional_info then
    emit (InCol2 i) (EMarkdown [Lit "**Additional Info:**"]) ;;;
    additional_info <- py_get org "additional_info" JNull ;;
    emit (InCol2 i) (EJson additional_info)
  else ret tt.

Record org_form := mk_org_form {
  search_term : string;    (* st.text_input *)
  org_size : Z;            (* st.number_input, 1..50 *)
  submitted_org : bool     (* st.form_submit_button *)
}.

(** What the organization tab shows for a result, lines 342-365 *)
Definition show_organizations (result : json) : M unit :=
  if py_truthy result then
    total <- py_get result "total-hits" (JInt 0) ;;
    emit InTab (ESuccess [Lit "✅ Found "; Val total; Lit " organizations"]) ;;;
    orgs <- py_get result "results" (JArr []) ;;
    if negb (py_truthy orgs) then
      emit InTab (EInfo [Lit "No results found."])
    else
      os <- py_iter orgs ;;
      for_each (enumerate 1 os) (fun io => render_org (fst io) (snd io))
  else ret tt.

(** What the organization tab does after its form, lines 335-365 *)
Definition tab4 (f : org_form) : M unit :=
  if submitted_org f then
    if negb (py_truthy (JStr (py_strip (search_term f)))) then
      emit InTab (EWarning [Lit "⚠️ Please enter a search term."])
    else
      result <- st_spinner "Searching organizations..."
                  (search_organizations (search_term f) (org_size f)) ;;
      show_organizations result
  else ret tt.

End App.

(** ** The requests of the application, by name *)

Definition spell_request (env : option string) (q : string) : request :=
  mk_request "POST" (API_BASE_URL env ++ "/spellingcorrection")
    (JObj [("query", JStr q)]) [("Content-Type", "application/json")] 10.

Definition search_request (env : option string) (lang : string) (payload : json) : request :=
  mk_request "POST" (API_BASE_URL env ++ "/search/" ++ lang)
    payload [("Content-Type", "application/json")] 30.

Definition organizations_request (env : option string) (payload : json) : request :=
  mk_request "POST" (API_BASE_URL env ++ "/organizations")
    payload [("Content-Type", "application/json")] 30.

(** ** Views of the emitted elements *)

Definition warning_of (w : widget) : list fstring :=
  match snd w with EWarning t => [t] | _ => [] end.

Definition note_of (w : widget) : list fstring :=
  match snd w with EInfo t => [t] | _ => [] end.

Definition banner_of (w : widget) : list fstring :=
  match snd w with ESuccess t => [t] | _ => [] end.

Definition title_of (w : widget) : list fstring :=
  match snd w with EExpander t => [t] | _ => [] end.

Definition warnings (ws : list widget) : list fstring := flat_map warning_of ws.

(** The notes ([st.info]) *)
Definition notes (ws : list widget) : list fstring := flat_map note_of ws.

(** The success banners *)
Definition banners (ws : list widget) : list fstring := flat_map banner_of ws.

(** The titles of the blocks, one per expander *)
Definition titles (ws : list widget) : list fstring := flat_map title_of ws.

Definition is_score_line (w : widget) : bool :=
  match snd w with
  | EMarkdown (Lit s :: _) => (s =? "**Score:** ")%string
  | _ => false
  end.

Definition score_line_of (w : widget) : list widget :=
  if is_score_line w then [w] else [].

Definition score_lines (ws : list widget) : list widget := flat_map score_line_of ws.

(** A step that issues no request and emits nothing that [view] retains. *)
Definition quiet {X A} (view : widget -> list X) (m : M A) : Prop :=
  forall h, calls (m h) = [] /\ flat_map view (ui (m h)) = [].

(** A step that issues no request and raises nothing. *)
Definition total {A} (m : M A) : Prop :=
  forall h, exists a ws, m h = Out (Ok a) [] ws.

(** ** Notions of the specification *)

(** The ways the spelling call of [search_api] fails, each with the message of
    the warning it leads to ([None]: no warning). *)
Inductive spelling_failure : outcome -> option string -> Prop :=
| fail_raised e :
    spelling_failure (Raises e) (Some (exn_msg e))
| fail_status r :
    status_code r <> 200 ->
    spelling_failure (Resp r) None
| fail_not_json r msg :
    status_code r = 200 -> content r = NotJson msg ->
    spelling_failure (Resp r) (Some msg)
| fail_decoder r e :
    status_code r = 200 -> content r = DecoderRaises e ->
    spelling_failure (Resp r) (Some (exn_msg e))
| fail_not_dict r v :
    status_code r = 200 -> content r = JsonBody v -> (forall o, v <> JObj o) ->
    spelling_failure (Resp r)
      (Some ("'" ++ py_type_name v ++ "' object has no attribute 'get'")).

(** The keys of a payload, in order *)
Definition payload_keys (v : json) : list string :=
  match v with
  | JObj o => map fst o
  | _ => []
  end.

(** A string of whitespace code points only. *)
Inductive blank : string -> Prop :=
| blank_empty : blank ""
| blank_1 c s : ws1 c = true -> blank s -> blank (String c s)
| blank_2 c d s : ws2 c d = true -> blank s -> blank (String c (String d s))
| blank_3 c d e s :
    ws3 c d e = true -> blank s -> blank (String c (String d (String e s))).

Definition is_obj (v : json) : bool :=
  match v with
  | JObj _ => true
  | _ => false
  end.

(** The values that [format(v, '.4f')] accepts *)
Definition formattable (v : json) : bool :=
  match v with
  | JFloat _ | JBool _ => true
  | JInt z => match int_to_float z with Some _ => true | None => false end
  | _ => false
  end.

(** The name shown for a record, in the words of the specification: its
    depth-4 name for the language; failing that, its code; failing that,
    ["No Name"]. *)
Definition display_name (lang : string) (record : list (string * json)) : json :=
  match dict_lookup ("name_" ++ lang ++ "_d4") record with
  | Some name => name
  | None =>
      match dict_lookup "code" record with
      | Some code => code
      | None => JStr "No Name"
      end
  end.

(** The fields of a product record that a language tab reads *)
Definition record_keys (lang : string) : list string :=
  ["code"; "name_" ++ lang ++ "_d1"; "name_" ++ lang ++ "_d2"; "name_" ++ lang ++ "_d3";
   "name_" ++ lang ++ "_d4"; "Path"; "tradings"; "score"].

(** The score [render_hit] uses: [hit.get('_score') or source.get('score')] *)
Definition hit_score (hit source : list (string * json)) : json :=
  let s := dict_get hit "_score" JNull in
  if py_truthy s then s else dict_get source "score" JNull.

Definition score_ok (v : json) : bool := negb (py_truthy v) || formattable v.

Definition tradings_ok (v : json) : bool :=
  negb (py_truthy v)
  || match v with
     | JArr l => forallb is_obj l
     | _ => false
     end.

(** The hits that [render_hit] renders to the end: objects whose record is
    an object, whose score in use is falsy or a number in the range of
    floats, and whose tradings are falsy or a list of objects. *)
Definition hit_ok (hit : json) : bool :=
  match hit with
  | JObj ho =>
      match dict_get ho "_source" hit with
      | JObj so =>
          score_ok (hit_score ho so) && tradings_ok (dict_get so "tradings" (JArr []))
      | _ => false
      end
  | _ => false
  end.

(** The organizations that [render_org] renders to the end: objects whose
    score is falsy or a number in the range of floats. *)
Definition org_ok (org : json) : bool :=
  match org with
  | JObj oo => score_ok (dict_get oo "score" JNull)
  | _ => false
  end.

(** ** Two APIs that answer alike *)

(** From the histories [h1] and [h2] on, [api1] and [api2] give the same
    answer to every request, whatever was requested since. *)
Definition agree (api1 api2 : list request -> request -> outcome)
    (h1 h2 : list request) : Prop :=
  forall c r, api1 (c ++ h1)%list r = api2 (c ++ h2)%list r.

(** Two steps that end the same way wherever the two APIs answer alike. *)
Definition same {A} (api1 api2 : list request -> request -> outcome)
    (m1 m2 : M A) : Prop :=
  forall h1 h2, agree api1 api2 h1 h2 -> m1 h1 = m2 h2.

(** ** Sample data *)

(** The binary64 value 0.5 *)
Definition float_half : spec_float := S754_finite false 4503599627370496 (-53).

(** A stub of the remote API with one fixed answer per endpoint of the
    default base URL. *)
Definition stub_api (spelling search organizations : outcome)
    (h : list request) (r : request) : outcome :=
  if (req_url r =? "https://dmitriykuramshin-demoapi.hf.space/spellingcorrection")%string
  then spelling
  else if (req_url r =? "https://dmitriykuramshin-demoapi.hf.space/organizations")%string
  then organizations
  else search.

Definition server_error : outcome :=
  Resp (mk_response 500 "Internal Server Error" ""
          (NotJson "Expecting value: line 1 column 1 (char 0)")).

Definition timed_out : outcome :=
  Raises (mk_exn ExTimeout "HTTPSConnectionPool(host='dmitriykuramshin-demoapi.hf.space', port=443): Read timed out.").

Definition ok_json (v : json) : outcome := Resp (mk_response 200 "OK" "" (JsonBody v)).

(** ** The health check of the sidebar *)

Definition HEALTH_URL (env : option string) : string :=
  API_BASE_URL env ++ "/deep-health".

(** [requests.get(url, timeout=timeout)]: no body, no headers of the caller *)
Definition requests_get (api : list request -> request -> outcome)
    (url : string) (timeout : Z) : M response :=
  fun h =>
    let r := mk_request "GET" url JNull [] timeout in
    match api h r with
    | Resp resp => Out (Ok resp) [r] []
    | Raises e => Out (Exc e) [r] []
    end.

(** What the sidebar does for its button, lines 373-383. Its elements are at
    the top level of the panel it runs in, the sidebar. *)
Definition check_api_health (env : option string)
    (api : list request -> request -> outcome) (clicked : bool) : M unit :=
  if clicked then
    try_except
      (health_response <- requests_get api (HEALTH_URL env) 5 ;;
       if status_code health_response =? 200 then
         health_data <- response_json health_response ;;
         emit InTab (ESuccess [Lit "✅ API is reachable"]) ;;;
         emit InTab (EJson health_data)
       else
         emit InTab (EError [Lit "⚠️ API returned status: ";
                             Val (JInt (status_code health_response))]))
      (fun e =>
         if is_RequestException e then
           Some (emit InTab (EError [Lit "❌ Cannot connect to API: "; Lit (exn_msg e)]))
         else None)
  else ret tt.

Definition health_request (env : option string) : request :=
  mk_request "GET" (API_BASE_URL env ++ "/deep-health") JNull [] 5.

(** The errors shown ([st.error]) *)
Definition error_of (w : widget) : list fstring :=
  match snd w with EError t => [t] | _ => [] end.

Definition errors (ws : list widget) : list fstring := flat_map error_of ws.

(** ** Failures of a call *)

(** The ways a call fails with a [RequestException], each with the message
    of the exception: the call raises one, the answer has a status from 400
    to 599 ([raise_for_status]), or its body is not JSON ([response.json]). *)
Inductive call_failure : outcome -> string -> Prop :=
| failure_raised e :
    is_RequestException e = true ->
    call_failure (Raises e) (exn_msg e)
| failure_client r :
    400 <= status_code r < 500 ->
    call_failure (Resp r)
      (string_of_Z (status_code r) ++ " Client Error: " ++ reason r
         ++ " for url: " ++ url r)
| failure_server r :
    500 <= status_code r < 600 ->
    call_failure (Resp r)
      (string_of_Z (status_code r) ++ " Server Error: " ++ reason r
         ++ " for url: " ++ url r)
| failure_body r msg :
    status_code r < 400 \/ 600 <= status_code r ->
    content r = NotJson msg ->
    call_failure (Resp r) msg.

(** The call raised a timeout. *)
Definition timed_out_call (o : outcome) : bool :=
  match o with
  | Raises e => is_Timeout e
  | Resp _ => false
  end.

(** ** Whitespace, read from either end *)

(** A string made of one-byte whitespace and of the two- and three-byte
    sequences that [p2] and [p3] recognise. *)
Inductive blank_by (p2 : ascii -> ascii -> bool) (p3 : ascii -> ascii -> ascii -> bool)
  : string -> Prop :=
| blank_by_empty : blank_by p2 p3 ""
| blank_by_1 c s : ws1 c = true -> blank_by p2 p3 s -> blank_by p2 p3 (String c s)
| blank_by_2 c d s :
    p2 c d = true -> blank_by p2 p3 s -> blank_by p2 p3 (String c (String d s))
| blank_by_3 c d e s :
    p3 c d e = true -> blank_by p2 p3 s ->
    blank_by p2 p3 (String c (String d (String e s))).

(** ** Blocks *)

(** A step that raises, wherever it runs. *)
Definition fails {A} (m : M A) : Prop :=
  forall h, exists e, res (m h) = Exc e.

(** The product record of a hit: what is under ['_source'], or the hit. *)
Definition record_of (hit : json) : list (string * json) :=
  match hit with
  | JObj ho =>
      match dict_get ho "_source" hit with
      | JObj so => so
      | _ => []
      end
  | _ => []
  end.

(** The title of the block of hit number [i] *)
Definition hit_title (lang : string) (i : Z) (hit : json) : fstring :=
  [Lit "#"; Val (JInt i); Lit " - "; Val (display_name lang (record_of hit))].

(** The title of the block of organization number [i] *)
Definition org_title (i : Z) (org : json) : fstring :=
  [Lit "#"; Val (JInt i); Lit " - ";
   Val (match org with JObj oo => dict_get oo "name" (JStr "N/A") | _ => JNull end)].

(** The lines of one trading: its name and type, then its vehicles, each
    when it is truthy. *)
Definition trading_lines (i : Z) (t : list (string * json)) : list widget :=
  [(InCol2 i, EWrite [Lit "• "; Val (dict_get t "tradeName" (JStr "N/A")); Lit " (";
                      Val (dict_get t "tradeType" (JStr "N/A")); Lit ")"])]
  ++ (if py_truthy (dict_get t "inVehicleId" JNull)
      then [(InCol2 i, EWrite [Lit "  In: Vehicle "; Val (dict_get t "inVehicleId" JNull)])]
      else [])
  ++ (if py_truthy (dict_get t "outVehicleId" JNull)
      then [(InCol2 i, EWrite [Lit "  Out: Vehicle "; Val (dict_get t "outVehicleId" JNull)])]
      else []).

Definition fields_of (v : json) : list (string * json) :=
  match v with
  | JObj o => o
  | _ => []
  end.

(** The elements of the second column of a block *)
Definition second_column_of (w : widget) : list widget :=
  match fst w with
  | InCol2 _ => [w]
  | _ => []
  end.

(** The JSON values shown as they are ([st.json]) *)
Definition json_of (w : widget) : list json :=
  match snd w with EJson v => [v] | _ => [] end.

Definition jsons (ws : list widget) : list json := flat_map json_of ws.

(** ** Reading a formatted number back *)

(** The number that a string of decimal digits denotes; [None] for the empty
    string and for a string with any other character. *)
Definition decimal_value (s : string) : option Z :=
  option_map Z.of_uint (NilZero.uint_of_string s).

(** [n] is the integer nearest to [num / den], and the even one of the two
    when [num / den] lies halfway between them ([0 < den]). *)
Definition nearest_even (num den n : Z) : Prop :=
  2 * Z.abs (num - n * den) <= den
  /\ (2 * Z.abs (num - n * den) = den -> Z.even n = true).

(** * Properties *)

(** ** The model on sample inputs *)

Example float_fixed4_half : float_fixed4 float_half = "0.5000".
Proof. reflexivity. Qed.

(** 0.03125 lies halfway between 0.0312 and 0.0313. *)
Example float_fixed4_tie : float_fixed4 (S754_finite false 1 (-5)) = "0.0312".
Proof. reflexivity. Qed.

Example float_fixed4_negative_tiny : float_fixed4 (S754_finite true 1 (-40)) = "-0.0000".
Proof. reflexivity. Qed.

Example int_fixed4_rounds :
  res (py_format_4f (JInt (2 ^ 53 + 1)) []) = Ok "9007199254740992.0000".
Proof. reflexivity. Qed.

Example int_fixed4_overflow :
  res (py_format_4f (JInt (2 ^ 1024)) [])
  = Exc (mk_exn ExOverflowError "int too large to convert to float").
Proof. reflexivity. Qed.

Example py_strip_text : py_strip "  alüminium lövhələr  " = "alüminium lövhələr".
Proof. reflexivity. Qed.

Example utf8_chars_text : utf8_chars "aéb✅" = ["a"; "é"; "b"; "✅"].
Proof. reflexivity. Qed.

(** One run of the Azerbaijani tab, from the form to the last element. *)
Example tab1_run :
  let body :=
    JObj [("total-hits", JInt 1);
          ("Ranked-objects",
           JArr [JObj [("_source",
                        JObj [("code", JStr "7606"); ("name_az_d4", JStr "Lövhələr");
                              ("Path", JStr "76/7606");
                              ("tradings",
                               JArr [JObj [("tradeName", JStr "Idxal"); ("tradeType", JStr "IM");
                                           ("inVehicleId", JInt 30)]])]);
                       ("_score", JFloat float_half)]])] in
  tab1 None (stub_api server_error (ok_json body) server_error)
    (mk_search_form "lövhə" 10 float_half true false true) []
  = Out (Ok tt)
      [search_request None "az"
         (JObj [("query", JStr "lövhə"); ("size", JInt 10); ("alpha", JFloat float_half);
                ("use_vector", JBool true)])]
      [(InTab, ESpinner [Lit "Searching..."]);
       (InTab, ESuccess [Lit "✅ Found "; Val (JInt 1); Lit " hits"]);
       (InTab, EExpander [Lit "#"; Val (JInt 1); Lit " - "; Val (JStr "Lövhələr")]);
       (InExpander 1, EColumns [3; 1]);
       (InCol1 1, EMarkdown [Lit "**Code:** `"; Val (JStr "7606"); Lit "`"]);
       (InCol1 1, EMarkdown [Lit "**Score:** "; Lit "0.5000"]);
       (InCol1 1, EMarkdown [Lit "**Category (D1):** "; Val (JStr "N/A")]);
       (InCol1 1, EMarkdown [Lit "**Subcategory (D2):** "; Val (JStr "N/A")]);
       (InCol1 1, EMarkdown [Lit "**Sub-subcategory (D3):** "; Val (JStr "N/A")]);
       (InCol1 1, EMarkdown [Lit "**Product (D4):** "; Val (JStr "Lövhələr")]);
       (InCol1 1, EMarkdown [Lit "**Full Path:** "; Val (JStr "76/7606")]);
       (InCol2 1, EMarkdown [Lit "**Tradings:**"]);
       (InCol2 1, EWrite [Lit "• "; Val (JStr "Idxal"); Lit " ("; Val (JStr "IM"); Lit ")"]);
       (InCol2 1, EWrite [Lit "  In: Vehicle "; Val (JInt 30)])].
Proof. reflexivity. Qed.

(** ** Four decimals *)

Lemma pad4_length n : 0 <= n < 10000 -> String.length (pad4 n) = 4%nat.
Proof.
  intros Hn.
  assert (A : forallb (fun k => (String.length (pad4 (Z.of_nat k)) =? 4)%nat)
                (seq 0 (Z.to_nat 10000)) = true) by (vm_compute; reflexivity).
  rewrite forallb_forall in A.
  specialize (A (Z.to_nat n)). rewrite Z2Nat.id in A by lia.
  apply Nat.eqb_eq, A, in_seq. lia.
Qed.

(** A finite float is formatted as its sign, the digits of the integer part,
    a point and four decimals. *)
Lemma float_fixed4_shape s m e :
  exists whole decimals,
    float_fixed4 (S754_finite s m e) = sign_str s ++ whole ++ "." ++ decimals
    /\ String.length decimals = 4%nat.
Proof.
  unfold float_fixed4, fixed4_digits.
  eexists. eexists. split; [reflexivity |].
  apply pad4_length. apply Z.mod_pos_bound. lia.
Qed.

(** ** Running the monad *)

Lemma prefixed_nil {A} (o : out A) : prefixed [] [] o = o.
Proof. destruct o; reflexivity. Qed.

Lemma res_prefixed {A} cs ws (o : out A) : res (prefixed cs ws o) = res o.
Proof. destruct o; reflexivity. Qed.

Lemma calls_prefixed {A} cs ws (o : out A) :
  calls (prefixed cs ws o) = (cs ++ calls o)%list.
Proof. destruct o; reflexivity. Qed.

Lemma ui_prefixed {A} cs ws (o : out A) : ui (prefixed cs ws o) = (ws ++ ui o)%list.
Proof. destruct o; reflexivity. Qed.

Lemma run_bind_ret {A B} (a : A) (k : A -> M B) h : bind (ret a) k h = k a h.
Proof. unfold bind, ret. cbn. apply prefixed_nil. Qed.

Lemma run_bind_emit {B} c e (k : unit -> M B) h :
  bind (emit c e) k h = prefixed [] [(c, e)] (k tt h).
Proof. reflexivity. Qed.

(** ** The calls of the application *)

(** The main call of [search_api], by the answer of the API. *)
Lemma post_search_run env api sq size uv alpha lang h :
  post_search env api sq size uv alpha lang h
  = let rq := search_request env lang
                (JObj [("query", sq); ("size", JInt size); ("alpha", JFloat alpha);
                       ("use_vector", JBool uv)]) in
    let failed msg :=
      Out (Ok JNull) [rq] [(InTab, EError [Lit "❌ Request failed: "; Lit msg])] in
    let raised e :=
      if is_Timeout e then
        Out (Ok JNull) [rq]
          [(InTab, EError [Lit "⏱️ Request timed out. Please try again."])]
      else if is_RequestException e then failed (exn_msg e)
      else Out (Exc e) [rq] [] in
    match api h rq with
    | Resp r =>
        if (400 <=? status_code r) && (status_code r <? 500) then
          failed (string_of_Z (status_code r) ++ " Client Error: " ++ reason r
                    ++ " for url: " ++ url r)
        else if (500 <=? status_code r) && (status_code r <? 600) then
          failed (string_of_Z (status_code r) ++ " Server Error: " ++ reason r
                    ++ " for url: " ++ url r)
        else
          match content r with
          | JsonBody v => Out (Ok v) [rq] []
          | NotJson msg => failed msg
          | DecoderRaises e => raised e
          end
    | Raises e => raised e
    end.
Proof.
  unfold post_search, search_request, search_payload, try_except, bind,
    requests_post, json_headers.
  cbv zeta.
  destruct (api h _) as [r | e].
  - unfold raise_for_status.
    destruct ((400 <=? status_code r) && (status_code r <? 500)); [reflexivity |].
    destruct ((500 <=? status_code r) && (status_code r <? 600)); [reflexivity |].
    unfold response_json. destruct (content r) as [v | msg | e]; try reflexivity.
    cbn. destruct (is_Timeout e); [reflexivity |].
    destruct (is_RequestException e); reflexivity.
  - cbn. destruct (is_Timeout e); [reflexivity |].
    destruct (is_RequestException e); reflexivity.
Qed.

Lemma post_search_calls env api sq size uv alpha lang h :
  calls (post_search env api sq size uv alpha lang h)
  = [search_request env lang
       (JObj [("query", sq); ("size", JInt size); ("alpha", JFloat alpha);
              ("use_vector", JBool uv)])].
Proof.
  rewrite post_search_run. cbv zeta.
  destruct (api h _) as [r | e].
  - destruct ((400 <=? status_code r) && (status_code r <? 500)); [reflexivity |].
    destruct ((500 <=? status_code r) && (status_code r <? 600)); [reflexivity |].
    destruct (content r) as [v | msg | e]; try reflexivity.
    destruct (is_Timeout e); [reflexivity |].
    destruct (is_RequestException e); reflexivity.
  - destruct (is_Timeout e); [reflexivity |].
    destruct (is_RequestException e); reflexivity.
Qed.

Lemma search_api_plain env api q size uv alpha lang h :
  search_api env api q size uv alpha lang false h
  = post_search env api (JStr q) size uv alpha lang h.
Proof. unfold search_api. rewrite run_bind_ret. reflexivity. Qed.

(** What the spelling step of [search_api] makes of the answer to its call. *)
Lemma search_api_spelling env api q size uv alpha lang h :
  search_api env api q size uv alpha lang true h
  = let sp := spell_request env q in
    let main sq := post_search env api sq size uv alpha lang (sp :: h) in
    let warn msg :=
      prefixed [sp]
        [(InTab, EWarning [Lit "Spelling correction unavailable: "; Lit msg])]
        (main (JStr q)) in
    match api h sp with
    | Raises e => warn (exn_msg e)
    | Resp r =>
        if status_code r =? 200 then
          match content r with
          | NotJson msg => warn msg
          | DecoderRaises e => warn (exn_msg e)
          | JsonBody (JObj o) =>
              let corrected := dict_get o "corrected_query" (JStr q) in
              if py_ne_str corrected q then
                prefixed [sp]
                  [(InTab, EInfo [Lit "✨ Using corrected query: `"; Val corrected; Lit "`"])]
                  (main corrected)
              else prefixed [sp] [] (main (JStr q))
          | JsonBody v =>
              warn ("'" ++ py_type_name v ++ "' object has no attribute 'get'")
          end
        else prefixed [sp] [] (main (JStr q))
    end.
Proof.
  unfold search_api, spell_request, spelling_payload, json_headers.
  cbv zeta. unfold bind at 1. unfold try_except, bind at 1, requests_post, json_headers.
  destruct (api h _) as [r | e]; [| reflexivity].
  destruct (status_code r =? 200); [| reflexivity].
  unfold response_json, bind.
  destruct (content r) as [v | msg | e]; [| reflexivity | reflexivity].
  destruct v; try reflexivity.
  cbn. destruct (py_ne_str _ q); reflexivity.
Qed.

(** [search_organizations], by the answer of the API. *)
Lemma search_organizations_run env api term size h :
  search_organizations env api term size h
  = let rq := organizations_request env
                (JObj [("search_term", JStr term); ("index", JStr "organizations_v3");
                       ("size", JInt size)]) in
    let failed msg :=
      Out (Ok JNull) [rq] [(InTab, EError [Lit "❌ Request failed: "; Lit msg])] in
    match api h rq with
    | Resp r =>
        if (400 <=? status_code r) && (status_code r <? 500) then
          failed (string_of_Z (status_code r) ++ " Client Error: " ++ reason r
                    ++ " for url: " ++ url r)
        else if (500 <=? status_code r) && (status_code r <? 600) then
          failed (string_of_Z (status_code r) ++ " Server Error: " ++ reason r
                    ++ " for url: " ++ url r)
        else
          match content r with
          | JsonBody v => Out (Ok v) [rq] []
          | NotJson msg => failed msg
          | DecoderRaises e =>
              if is_RequestException e then failed (exn_msg e)
              else Out (Exc e) [rq] []
          end
    | Raises e =>
        if is_RequestException e then failed (exn_msg e)
        else Out (Exc e) [rq] []
    end.
Proof.
  unfold search_organizations, organizations_request, organizations_payload,
    try_except, bind, requests_post, json_headers.
  cbv zeta.
  destruct (api h _) as [r | e].
  - unfold raise_for_status.
    destruct ((400 <=? status_code r) && (status_code r <? 500)); [reflexivity |].
    destruct ((500 <=? status_code r) && (status_code r <? 600)); [reflexivity |].
    unfold response_json. destruct (content r) as [v | msg | e]; try reflexivity.
    cbn. destruct (is_RequestException e); reflexivity.
  - cbn. destruct (is_RequestException e); reflexivity.
Qed.

Lemma post_search_ui env api sq size uv alpha lang h :
  notes (ui (post_search env api sq size uv alpha lang h)) = []
  /\ warnings (ui (post_search env api sq size uv alpha lang h)) = [].
Proof.
  rewrite post_search_run. cbv zeta.
  destruct (api h _) as [r | e].
  - destruct ((400 <=? status_code r) && (status_code r <? 500)); [split; reflexivity |].
    destruct ((500 <=? status_code r) && (status_code r <? 600)); [split; reflexivity |].
    destruct (content r) as [v | msg | e]; try (split; reflexivity).
    destruct (is_Timeout e); [split; reflexivity |].
    destruct (is_RequestException e); split; reflexivity.
  - destruct (is_Timeout e); [split; reflexivity |].
    destruct (is_RequestException e); split; reflexivity.
Qed.

(** ** Blank input *)

Lemma ws2_lead c d : ws2 c d = true -> ws1 c = false.
Proof.
  destruct c as [[] [] [] [] [] [] [] []]; try discriminate; reflexivity.
Qed.

Lemma ws3_lead c d e : ws3 c d e = true -> ws1 c = false /\ ws2 c d = false.
Proof.
  destruct c as [[] [] [] [] [] [] [] []]; try discriminate; split; reflexivity.
Qed.

Lemma py_lstrip_blank s : blank s -> py_lstrip s = "".
Proof.
  unfold py_lstrip.
  induction 1 as [| c s W _ IH | c d s W _ IH | c d e s W _ IH]; cbn.
  - reflexivity.
  - rewrite W. exact IH.
  - rewrite (ws2_lead c d W), W. exact IH.
  - destruct (ws3_lead c d e W) as [W1 W2]. rewrite W1, W2, W. exact IH.
Qed.

Lemma py_strip_blank s : blank s -> py_strip s = "".
Proof.
  intros B. unfold py_strip. rewrite (py_lstrip_blank s B). reflexivity.
Qed.

(** ** Steps that stay silent *)

Section Quiet.

Context {X : Type} (view : widget -> list X).

Lemma quiet_ret {A} (a : A) : quiet view (ret a).
Proof. intros h. split; reflexivity. Qed.

Lemma quiet_raise {A} (e : exn) : quiet view (@raise A e).
Proof. intros h. split; reflexivity. Qed.

Lemma quiet_emit c e : view (c, e) = [] -> quiet view (emit c e).
Proof. intros V h. split; [reflexivity |]. cbn. rewrite V. reflexivity. Qed.

Lemma quiet_bind {A B} (m : M A) (k : A -> M B) :
  quiet view m -> (forall a, quiet view (k a)) -> quiet view (bind m k).
Proof.
  intros Hm Hk h. unfold bind. destruct (Hm h) as [C V].
  destruct (m h) as [[a | e] cs ws]; cbn in C, V; [| split; assumption].
  subst cs. cbn [rev app].
  destruct (Hk a h) as [C' V']. rewrite calls_prefixed, ui_prefixed, flat_map_app.
  rewrite C', V, V'. split; reflexivity.
Qed.

Lemma quiet_if {A} (b : bool) (m1 m2 : M A) :
  quiet view m1 -> quiet view m2 -> quiet view (if b then m1 else m2).
Proof. destruct b; auto. Qed.

Lemma quiet_py_get v k d : quiet view (py_get v k d).
Proof. destruct v; intros h; split; reflexivity. Qed.

Lemma quiet_py_iter v : quiet view (py_iter v).
Proof. destruct v; intros h; split; reflexivity. Qed.

Lemma quiet_py_format_4f v : quiet view (py_format_4f v).
Proof.
  destruct v as [| b | z | f | s | l | o]; try (intros h; split; reflexivity);
    unfold py_format_4f, int_fixed4; destruct (int_to_float _);
    intros h; split; reflexivity.
Qed.

Lemma quiet_for_each {A} (l : list A) (body : A -> M unit) :
  (forall x, quiet view (body x)) -> quiet view (for_each l body).
Proof.
  intros Hb. induction l as [| x l IH]; cbn [for_each].
  - apply quiet_ret.
  - apply quiet_bind; [apply Hb | intros _; exact IH].
Qed.

End Quiet.

Create HintDb quiet.
#[local] Hint Resolve quiet_ret quiet_raise quiet_py_get quiet_py_iter
  quiet_py_format_4f : quiet.
#[local] Hint Extern 1 (quiet _ (bind _ _)) => apply quiet_bind; [| intros ?] : quiet.
#[local] Hint Extern 1 (quiet _ (if _ then _ else _)) => apply quiet_if : quiet.
#[local] Hint Extern 1 (quiet _ (emit _ _)) => apply quiet_emit; reflexivity : quiet.
#[local] Hint Extern 1 (quiet _ (for_each _ _)) => apply quiet_for_each; intros ? : quiet.

(** Neither [render_hit] nor [render_org] shows a banner. *)
Lemma banner_quiet_render_hit lang i hit : quiet banner_of (render_hit lang i hit).
Proof. unfold render_hit, render_trading. auto 80 with quiet. Qed.

Lemma banner_quiet_render_org i org : quiet banner_of (render_org i org).
Proof. unfold render_org. auto 80 with quiet. Qed.

(** ** Steps that complete *)

Lemma total_ret {A} (a : A) : total (ret a).
Proof. intros h. exists a, []. reflexivity. Qed.

Lemma total_emit c e : total (emit c e).
Proof. intros h. exists tt, [(c, e)]. reflexivity. Qed.

Lemma total_bind {A B} (m : M A) (k : A -> M B) :
  total m -> (forall a, total (k a)) -> total (bind m k).
Proof.
  intros Hm Hk h. unfold bind.
  destruct (Hm h) as (a & ws & E). rewrite E. cbn [rev app].
  destruct (Hk a h) as (b & ws' & E'). rewrite E'.
  exists b, (ws ++ ws')%list. reflexivity.
Qed.

Lemma total_bind_ret {A B} (a : A) (k : A -> M B) :
  total (k a) -> total (bind (ret a) k).
Proof.
  intros Hk h. rewrite run_bind_ret. apply Hk.
Qed.

Lemma total_if {A} (b : bool) (m1 m2 : M A) :
  (b = true -> total m1) -> (b = false -> total m2) -> total (if b then m1 else m2).
Proof. destruct b; auto. Qed.

Lemma total_for_each {A} (l : list A) (body : A -> M unit) :
  (forall x, In x l -> total (body x)) -> total (for_each l body).
Proof.
  induction l as [| x l IH]; intros Hb; cbn [for_each].
  - apply total_ret.
  - apply total_bind.
    + apply Hb. left. reflexivity.
    + intros _. apply IH. intros y Hy. apply Hb. right. exact Hy.
Qed.

Lemma total_py_format_4f v : formattable v = true -> total (py_format_4f v).
Proof.
  destruct v as [| b | z | f | s | l | o]; cbn; try discriminate; intros F h.
  - unfold int_fixed4. destruct b; cbn; eexists; eexists; reflexivity.
  - unfold int_fixed4. destruct (int_to_float z); [| discriminate].
    eexists; eexists; reflexivity.
  - eexists; eexists; reflexivity.
Qed.

Lemma total_render_trading i o : total (render_trading i (JObj o)).
Proof.
  unfold render_trading. cbn [py_get].
  repeat (first [ apply total_bind_ret | apply total_bind; [| intros ?]
                | apply total_if; intros ? | apply total_emit | apply total_ret ]).
Qed.

(** ** Rendering one hit *)

Lemma render_hit_opens lang i ho so :
  dict_get ho "_source" (JObj ho) = JObj so ->
  exists body : M unit,
    quiet title_of body /\ quiet banner_of body
    /\ forall h,
        render_hit lang i (JObj ho) h
        = prefixed []
            [(InTab, EExpander [Lit "#"; Val (JInt i); Lit " - ";
                                Val (display_name lang so)])]
            (body h).
Proof.
  intros Hs. unfold render_hit. cbn [py_get]. eexists.
  split; [| split]; cycle 2.
  - intros h. rewrite run_bind_ret, Hs. cbn [py_get]. rewrite !run_bind_ret.
    rewrite run_bind_emit. reflexivity.
  - unfold render_trading. auto 80 with quiet.
  - unfold render_trading. auto 80 with quiet.
Qed.

Lemma total_score_block (c : container) score :
  score_ok score = true ->
  total (if py_truthy score then
           text <- py_format_4f score ;;
           emit c (EMarkdown [Lit "**Score:** "; Lit text])
         else ret tt).
Proof.
  unfold score_ok. intros S. apply total_if; intros T.
  - rewrite T in S. cbn in S.
    apply total_bind; [apply total_py_format_4f; exact S |].
    intros text. apply total_emit.
  - apply total_ret.
Qed.

Ltac total_step :=
  first [ apply total_bind_ret | apply total_emit | apply total_ret
        | apply total_bind; [apply total_emit | intros _] ].

Lemma total_tradings_block i tradings :
  tradings_ok tradings = true ->
  total (if py_truthy tradings then
           emit (InCol2 i) (EMarkdown [Lit "**Tradings:**"]) ;;;
           ts <- py_iter tradings ;;
           for_each ts (render_trading i)
         else emit (InCol2 i) (EMarkdown [Lit "*No trading info*"])).
Proof.
  unfold tradings_ok. intros Hok. apply total_if; intros T; [| apply total_emit].
  rewrite T in Hok. cbn in Hok.
  destruct tradings as [| | | | | l |]; try discriminate.
  cbn [py_iter]. repeat total_step.
  apply total_for_each. intros t Ht.
  rewrite forallb_forall in Hok. specialize (Hok t Ht).
  destruct t; try discriminate. apply total_render_trading.
Qed.

Lemma total_render_hit lang i hit : hit_ok hit = true -> total (render_hit lang i hit).
Proof.
  destruct hit as [| | | | | | ho]; try discriminate. cbn [hit_ok].
  destruct (dict_get ho "_source" (JObj ho)) as [| | | | | | so] eqn:Hs;
    try discriminate.
  intros Hok. apply andb_prop in Hok. destruct Hok as [Hscore Htr].
  unfold render_hit. cbn [py_get]. apply total_bind_ret. rewrite Hs. cbn [py_get].
  repeat total_step.
  unfold hit_score in Hscore. cbv zeta in Hscore.
  destruct (py_truthy (dict_get ho "_score" JNull)); apply total_bind_ret;
    (apply total_bind; [apply total_score_block; exact Hscore | intros _]);
    repeat total_step; apply total_tradings_block; exact Htr.
Qed.

Lemma dict_get_agree so so' k :
  dict_lookup k so = dict_lookup k so' ->
  forall d, dict_get so k d = dict_get so' k d.
Proof. intros E d. unfold dict_get. rewrite E. reflexivity. Qed.

(** [render_hit] reads a hit through its ['_score'] and the fields
    [record_keys] of its record only. *)
Lemma render_hit_reads lang i ho ho' so so' h :
  dict_get ho "_source" (JObj ho) = JObj so ->
  dict_get ho' "_source" (JObj ho') = JObj so' ->
  (forall k, In k (record_keys lang) -> dict_lookup k so = dict_lookup k so') ->
  dict_get ho "_score" JNull = dict_get ho' "_score" JNull ->
  render_hit lang i (JObj ho) h = render_hit lang i (JObj ho') h.
Proof.
  intros Hs Hs' Hk Hc. unfold render_hit. cbn [py_get].
  rewrite !run_bind_ret, Hs, Hs', Hc. cbn [py_get].
  repeat (rewrite run_bind_ret || rewrite run_bind_emit).
  unfold record_keys, name_field in *.
  rewrite !(dict_get_agree so so' "code") by (apply Hk; cbn; tauto).
  rewrite !(dict_get_agree so so' ("name_" ++ lang ++ "_d" ++ "1"))
    by (apply Hk; cbn; tauto).
  rewrite !(dict_get_agree so so' ("name_" ++ lang ++ "_d" ++ "2"))
    by (apply Hk; cbn; tauto).
  rewrite !(dict_get_agree so so' ("name_" ++ lang ++ "_d" ++ "3"))
    by (apply Hk; cbn; tauto).
  rewrite !(dict_get_agree so so' ("name_" ++ lang ++ "_d" ++ "4"))
    by (apply Hk; cbn; tauto).
  rewrite !(dict_get_agree so so' "Path") by (apply Hk; cbn; tauto).
  rewrite !(dict_get_agree so so' "tradings") by (apply Hk; cbn; tauto).
  rewrite !(dict_get_agree so so' "score") by (apply Hk; cbn; tauto).
  reflexivity.
Qed.

(** A loop whose body completes on every item and opens one expander per item
    completes, and opens as many expanders as there are items. *)
Lemma for_each_blocks {A} (l : list A) (body : A -> M unit) h :
  (forall x, In x l -> total (body x)) ->
  (forall x h', In x l -> List.length (flat_map title_of (ui (body x h'))) = 1%nat) ->
  res (for_each l body h) = Ok tt
  /\ calls (for_each l body h) = []
  /\ List.length (flat_map title_of (ui (for_each l body h))) = List.length l.
Proof.
  induction l as [| x l IH]; intros Ht Hb; cbn [for_each].
  - repeat split; reflexivity.
  - unfold bind.
    destruct (Ht x (or_introl eq_refl) h) as ([] & ws & E).
    pose proof (Hb x h (or_introl eq_refl)) as Hx. rewrite E in Hx |- *. cbn in Hx.
    cbn [rev app].
    destruct IH as (R & C & L).
    { intros y Hy. apply Ht. right. exact Hy. }
    { intros y h' Hy. apply Hb. right. exact Hy. }
    rewrite res_prefixed, calls_prefixed, ui_prefixed, flat_map_app, length_app.
    rewrite R, C, Hx, L. repeat split; reflexivity.
Qed.

Lemma In_enumerate {A} (l : list A) start i x :
  In (i, x) (enumerate start l) -> In x l.
Proof.
  revert start. induction l as [| y l IH]; cbn; intros start H; [exact H |].
  destruct H as [H | H].
  - left. congruence.
  - right. eapply IH. exact H.
Qed.

Lemma length_enumerate {A} (l : list A) start :
  List.length (enumerate start l) = List.length l.
Proof.
  revert start. induction l as [| y l IH]; cbn; intros start; [reflexivity |].
  rewrite IH. reflexivity.
Qed.

Lemma render_hit_one_block lang i hit h :
  hit_ok hit = true ->
  List.length (flat_map title_of (ui (render_hit lang i hit h))) = 1%nat.
Proof.
  destruct hit as [| | | | | | ho]; try discriminate. cbn [hit_ok].
  destruct (dict_get ho "_source" (JObj ho)) as [| | | | | | so] eqn:Hs;
    try discriminate.
  intros _. destruct (render_hit_opens lang i ho so Hs) as (body & Q & _ & E).
  rewrite E, ui_prefixed. cbn. destruct (Q h) as [_ V]. rewrite V. reflexivity.
Qed.

(** ** Rendering one organization *)

Lemma total_render_org i org : org_ok org = true -> total (render_org i org).
Proof.
  destruct org as [| | | | | | oo]; try discriminate. cbn [org_ok]. intros Hscore.
  unfold render_org. cbn [py_get].
  repeat total_step.
  apply total_bind; [apply total_score_block; exact Hscore | intros _].
  repeat total_step.
  apply total_if; intros _; repeat total_step.
Qed.

Lemma render_org_one_block i org h :
  org_ok org = true ->
  List.length (flat_map title_of (ui (render_org i org h))) = 1%nat.
Proof.
  destruct org as [| | | | | | oo]; try discriminate. intros _.
  unfold render_org. cbn [py_get]. rewrite run_bind_ret, run_bind_emit, ui_prefixed.
  match goal with
  | |- context [ui (bind ?m ?k h)] =>
      assert (Q : quiet title_of (bind m k)) by auto 60 with quiet;
      destruct (Q h) as [_ V]
  end.
  rewrite flat_map_app, V. reflexivity.
Qed.

(** ** The results of a search *)

Lemma show_results_run lang o h :
  o <> [] ->
  exists tail : M unit,
    quiet banner_of tail
    /\ show_results lang (JObj o) h
       = prefixed []
           [(InTab, ESuccess [Lit "✅ Found "; Val (dict_get o "total-hits" (JInt 0));
                              Lit " hits"])]
           (tail h)
    /\ forall hits,
        dict_lookup "Ranked-objects" o = Some (JArr hits) ->
        forallb hit_ok hits = true ->
        res (tail h) = Ok tt
        /\ List.length (flat_map title_of (ui (tail h))) = List.length hits.
Proof.
  intros Ho. unfold show_results.
  assert (T : py_truthy (JObj o) = true) by (destruct o; [contradiction | reflexivity]).
  rewrite T. cbn [py_get].
  eexists. split; [| split]; cycle 1.
  - rewrite run_bind_ret, run_bind_emit. reflexivity.
  - intros hits Hl Hok. cbv beta. rewrite run_bind_ret.
    assert (E : dict_get o "Ranked-objects" (JArr []) = JArr hits)
      by (unfold dict_get; rewrite Hl; reflexivity).
    rewrite E.
    destruct hits as [| x l].
    + cbn. split; reflexivity.
    + cbn [py_truthy negb py_iter]. rewrite run_bind_ret.
      destruct (for_each_blocks (enumerate 1 (x :: l))
                  (fun ih => render_hit lang (fst ih) (snd ih)) h) as (R & _ & L).
      * intros [i y] Hy. apply total_render_hit.
        rewrite forallb_forall in Hok. apply Hok.
        eapply In_enumerate. exact Hy.
      * intros [i y] h' Hy. apply render_hit_one_block.
        rewrite forallb_forall in Hok. apply Hok.
        eapply In_enumerate. exact Hy.
      * rewrite length_enumerate in L. split; assumption.
  - pose proof banner_quiet_render_hit. auto 20 with quiet.
Qed.

Lemma show_organizations_run o h :
  o <> [] ->
  exists tail : M unit,
    quiet banner_of tail
    /\ show_organizations (JObj o) h
       = prefixed []
           [(InTab, ESuccess [Lit "✅ Found "; Val (dict_get o "total-hits" (JInt 0));
                              Lit " organizations"])]
           (tail h)
    /\ forall orgs,
        dict_lookup "results" o = Some (JArr orgs) ->
        forallb org_ok orgs = true ->
        res (tail h) = Ok tt
        /\ List.length (flat_map title_of (ui (tail h))) = List.length orgs.
Proof.
  intros Ho. unfold show_organizations.
  assert (T : py_truthy (JObj o) = true) by (destruct o; [contradiction | reflexivity]).
  rewrite T. cbn [py_get].
  eexists. split; [| split]; cycle 1.
  - rewrite run_bind_ret, run_bind_emit. reflexivity.
  - intros orgs Hl Hok. cbv beta. rewrite run_bind_ret.
    assert (E : dict_get o "results" (JArr []) = JArr orgs)
      by (unfold dict_get; rewrite Hl; reflexivity).
    rewrite E.
    destruct orgs as [| x l].
    + cbn. split; reflexivity.
    + cbn [py_truthy negb py_iter]. rewrite run_bind_ret.
      destruct (for_each_blocks (enumerate 1 (x :: l))
                  (fun io => render_org (fst io) (snd io)) h) as (R & _ & L).
      * intros [i y] Hy. apply total_render_org.
        rewrite forallb_forall in Hok. apply Hok.
        eapply In_enumerate. exact Hy.
      * intros [i y] h' Hy. apply render_org_one_block.
        rewrite forallb_forall in Hok. apply Hok.
        eapply In_enumerate. exact Hy.
      * rewrite length_enumerate in L. split; assumption.
  - pose proof banner_quiet_render_org. auto 20 with quiet.
Qed.

(** The one title of the block of a hit *)
Lemma render_hit_title lang i ho so h :
  dict_get ho "_source" (JObj ho) = JObj so ->
  titles (ui (render_hit lang i (JObj ho) h))
  = [[Lit "#"; Val (JInt i); Lit " - "; Val (display_name lang so)]].
Proof.
  intros Hs. destruct (render_hit_opens lang i ho so Hs) as (body & Q & _ & E).
  rewrite E, ui_prefixed. unfold titles. rewrite flat_map_app.
  destruct (Q h) as [_ V]. rewrite V. reflexivity.
Qed.

(** ** The score line of a hit *)

Lemma py_format_4f_pure v h :
  py_format_4f v h = Out (res (py_format_4f v h)) [] [].
Proof.
  destruct v as [| b | z | f | s | l | o]; try reflexivity;
    unfold py_format_4f, int_fixed4; destruct (int_to_float _); reflexivity.
Qed.

(** The block of a hit has a score line exactly when the score in use is
    truthy (and can be formatted); the line shows it with four decimals. *)
Lemma score_line_iff_truthy lang i ho so h :
  dict_get ho "_source" (JObj ho) = JObj so ->
  score_lines (ui (render_hit lang i (JObj ho) h))
  = if py_truthy (hit_score ho so) then
      match res (py_format_4f (hit_score ho so) h) with
      | Ok text => [(InCol1 i, EMarkdown [Lit "**Score:** "; Lit text])]
      | Exc _ => []
      end
    else [].
Proof.
  intros Hs. unfold render_hit. cbn [py_get]. rewrite run_bind_ret, Hs. cbn [py_get].
  repeat (rewrite run_bind_ret || rewrite run_bind_emit).
  rewrite !ui_prefixed. unfold score_lines. rewrite !flat_map_app.
  change (flat_map score_line_of [(InTab, EExpander [Lit "#"; Val (JInt i); Lit " - ";
            Val (dict_get so (name_field lang "4") (dict_get so "code" (JStr "No Name")))])])
    with (@nil widget).
  cbn [flat_map app score_line_of is_score_line snd].
  assert (E : forall k : json -> M unit,
             bind (if py_truthy (dict_get ho "_score" JNull)
                   then ret (dict_get ho "_score" JNull)
                   else ret (dict_get so "score" JNull)) k h
             = k (hit_score ho so) h).
  { intros k. unfold hit_score. cbv zeta.
    destruct (py_truthy (dict_get ho "_score" JNull)); apply run_bind_ret. }
  rewrite E. clear E.
  match goal with
  | |- context [bind _ ?k h] =>
      assert (Q : quiet score_line_of (k tt))
        by (unfold render_trading; auto 80 with quiet)
  end.
  destruct (Q h) as [_ V].
  destruct (py_truthy (hit_score ho so)).
  - unfold bind at 1. unfold bind at 1.
    rewrite (py_format_4f_pure (hit_score ho so) h).
    destruct (res (py_format_4f (hit_score ho so) h)) as [text | e]; cbn [res calls ui].
    + cbn [emit prefixed rev app]. rewrite ui_prefixed, flat_map_app, V. reflexivity.
    + reflexivity.
  - rewrite run_bind_ret, V. reflexivity.
Qed.

(** A score of zero in use, of either sign, leaves the block without a score
    line. *)
Lemma zero_score_no_line lang i ho so h s :
  dict_get ho "_source" (JObj ho) = JObj so ->
  hit_score ho so = JFloat (S754_zero s) ->
  score_lines (ui (render_hit lang i (JObj ho) h)) = [].
Proof.
  intros Hs Hz. rewrite (score_line_iff_truthy lang i ho so h Hs), Hz. reflexivity.
Qed.

(** A finite score in use that is not zero is shown with four decimals. *)
Lemma finite_score_line lang i ho so h s m e :
  dict_get ho "_source" (JObj ho) = JObj so ->
  hit_score ho so = JFloat (S754_finite s m e) ->
  score_lines (ui (render_hit lang i (JObj ho) h))
  = [(InCol1 i, EMarkdown [Lit "**Score:** "; Lit (float_fixed4 (S754_finite s m e))])].
Proof.
  intros Hs Hz. rewrite (score_line_iff_truthy lang i ho so h Hs), Hz. reflexivity.
Qed.

(** ** From a response to the results shown *)

(** On an answer below 400 with a JSON body, a language tab (spelling
    correction off) shows its spinner and then the results of the body. *)
Lemma search_tab_shows_body env api lang f h r v :
  submitted f = true ->
  py_strip (query f) <> "" ->
  use_spelling f = false ->
  let rq := search_request env lang
              (JObj [("query", JStr (query f)); ("size", JInt (size f));
                     ("alpha", JFloat (alpha f)); ("use_vector", JBool (use_vector f))]) in
  api h rq = Resp r ->
  200 <= status_code r < 300 ->
  content r = JsonBody v ->
  search_tab env api lang f h
  = prefixed [rq] [(InTab, ESpinner [Lit "Searching..."])]
      (show_results lang v (rq :: h)).
Proof.
  intros Hsub Hq Hsp rq Ha Hst Hc.
  unfold search_tab, st_spinner. rewrite Hsub, Hsp.
  assert (T : negb (py_truthy (JStr (py_strip (query f)))) = false).
  { cbn. destruct (py_strip (query f)); [contradiction | reflexivity]. }
  rewrite T. unfold bind at 1. rewrite run_bind_emit, search_api_plain, post_search_run.
  cbv zeta. fold rq. rewrite Ha.
  replace ((400 <=? status_code r) && (status_code r <? 500)) with false
    by (symmetry; apply andb_false_iff; left; apply Z.leb_gt; lia).
  replace ((500 <=? status_code r) && (status_code r <? 600)) with false
    by (symmetry; apply andb_false_iff; left; apply Z.leb_gt; lia).
  rewrite Hc. cbn [prefixed app rev]. reflexivity.
Qed.

(** The same for the organization tab. *)
Lemma tab4_shows_body env api f h r v :
  submitted_org f = true ->
  py_strip (search_term f) <> "" ->
  let rq := organizations_request env
              (JObj [("search_term", JStr (search_term f));
                     ("index", JStr "organizations_v3"); ("size", JInt (org_size f))]) in
  api h rq = Resp r ->
  200 <= status_code r < 300 ->
  content r = JsonBody v ->
  tab4 env api f h
  = prefixed [rq] [(InTab, ESpinner [Lit "Searching organizations..."])]
      (show_organizations v (rq :: h)).
Proof.
  intros Hsub Hq rq Ha Hst Hc.
  unfold tab4, st_spinner. rewrite Hsub.
  assert (T : negb (py_truthy (JStr (py_strip (search_term f)))) = false).
  { cbn. destruct (py_strip (search_term f)); [contradiction | reflexivity]. }
  rewrite T. unfold bind at 1. rewrite run_bind_emit, search_organizations_run.
  cbv zeta. fold rq. rewrite Ha.
  replace ((400 <=? status_code r) && (status_code r <? 500)) with false
    by (symmetry; apply andb_false_iff; left; apply Z.leb_gt; lia).
  replace ((500 <=? status_code r) && (status_code r <? 600)) with false
    by (symmetry; apply andb_false_iff; left; apply Z.leb_gt; lia).
  rewrite Hc. cbn [prefixed app rev]. reflexivity.
Qed.

(** ** Runs against two APIs *)

Section Same.

Variables api1 api2 : list request -> request -> outcome.

Lemma agree_after c h1 h2 :
  agree api1 api2 h1 h2 -> agree api1 api2 (c ++ h1) (c ++ h2).
Proof.
  intros Hag c' r. rewrite !app_assoc. apply Hag.
Qed.

Lemma same_ret {A} (a : A) : same api1 api2 (ret a) (ret a).
Proof. intros h1 h2 _. reflexivity. Qed.

Lemma same_raise {A} (e : exn) : same api1 api2 (@raise A e) (raise e).
Proof. intros h1 h2 _. reflexivity. Qed.

Lemma same_emit c e : same api1 api2 (emit c e) (emit c e).
Proof. intros h1 h2 _. reflexivity. Qed.

Lemma same_bind {A B} (m1 m2 : M A) (k1 k2 : A -> M B) :
  same api1 api2 m1 m2 -> (forall a, same api1 api2 (k1 a) (k2 a)) ->
  same api1 api2 (bind m1 k1) (bind m2 k2).
Proof.
  intros Hm Hk h1 h2 Hag. unfold bind. rewrite (Hm h1 h2 Hag).
  destruct (m2 h2) as [[a | e] cs ws]; [| reflexivity].
  rewrite (Hk a (rev cs ++ h1)%list (rev cs ++ h2)%list); [reflexivity |].
  apply agree_after. exact Hag.
Qed.

Lemma same_try_except {A} (m1 m2 : M A) (handler : exn -> option (M A)) :
  same api1 api2 m1 m2 ->
  (forall e k, handler e = Some k -> same api1 api2 k k) ->
  same api1 api2 (try_except m1 handler) (try_except m2 handler).
Proof.
  intros Hm Hh h1 h2 Hag. unfold try_except. rewrite (Hm h1 h2 Hag).
  destruct (m2 h2) as [[a | e] cs ws]; [reflexivity |].
  destruct (handler e) as [k |] eqn:Hk; [| reflexivity].
  rewrite (Hh e k Hk (rev cs ++ h1)%list (rev cs ++ h2)%list); [reflexivity |].
  apply agree_after. exact Hag.
Qed.

Lemma same_if {A} (b : bool) (m1 m2 n1 n2 : M A) :
  same api1 api2 m1 m2 -> same api1 api2 n1 n2 ->
  same api1 api2 (if b then m1 else n1) (if b then m2 else n2).
Proof. destruct b; auto. Qed.

Lemma same_for_each {A} (l : list A) (body : A -> M unit) :
  (forall x, same api1 api2 (body x) (body x)) ->
  same api1 api2 (for_each l body) (for_each l body).
Proof.
  intros Hb. induction l as [| x l IH]; cbn [for_each].
  - apply same_ret.
  - apply same_bind; [apply Hb | intros _; exact IH].
Qed.

Lemma same_py_get v k d : same api1 api2 (py_get v k d) (py_get v k d).
Proof. intros h1 h2 _. destruct v; reflexivity. Qed.

Lemma same_py_iter v : same api1 api2 (py_iter v) (py_iter v).
Proof. intros h1 h2 _. destruct v; reflexivity. Qed.

Lemma same_py_format_4f v : same api1 api2 (py_format_4f v) (py_format_4f v).
Proof.
  intros h1 h2 _.
  destruct v as [| b | z | f | s | l | o]; try reflexivity;
    unfold py_format_4f, int_fixed4; destruct (int_to_float _); reflexivity.
Qed.

Lemma same_raise_for_status r :
  same api1 api2 (raise_for_status r) (raise_for_status r).
Proof.
  intros h1 h2 _. unfold raise_for_status.
  destruct ((400 <=? status_code r) && (status_code r <? 500)); [reflexivity |].
  destruct ((500 <=? status_code r) && (status_code r <? 600)); reflexivity.
Qed.

Lemma same_response_json r : same api1 api2 (response_json r) (response_json r).
Proof. intros h1 h2 _. unfold response_json. destruct (content r); reflexivity. Qed.

(** The two APIs give the same answer to the next request. *)
Lemma same_requests_post target payload timeout :
  same api1 api2 (requests_post api1 target payload timeout)
       (requests_post api2 target payload timeout).
Proof.
  intros h1 h2 Hag. unfold requests_post.
  pose proof (Hag [] (mk_request "POST" target payload json_headers timeout)) as E.
  cbn [app] in E. rewrite E. reflexivity.
Qed.

End Same.

Create HintDb same.
#[local] Hint Resolve same_ret same_raise same_emit same_py_get same_py_iter
  same_py_format_4f same_raise_for_status same_response_json same_requests_post : same.
#[local] Hint Extern 1 (same _ _ (bind _ _) (bind _ _)) =>
  apply same_bind; [| intros ?] : same.
#[local] Hint Extern 1 (same _ _ (if _ then _ else _) (if _ then _ else _)) =>
  apply same_if : same.
#[local] Hint Extern 1 (same _ _ (for_each _ _) (for_each _ _)) =>
  apply same_for_each; intros ? : same.

Lemma same_render_hit api1 api2 lang i hit :
  same api1 api2 (render_hit lang i hit) (render_hit lang i hit).
Proof. unfold render_hit, render_trading. auto 80 with same. Qed.

Lemma same_show_results api1 api2 lang result :
  same api1 api2 (show_results lang result) (show_results lang result).
Proof.
  pose proof (same_render_hit api1 api2).
  unfold show_results. auto 30 with same.
Qed.

Lemma same_search_api env api1 api2 q size uv alpha lang spelling :
  same api1 api2 (search_api env api1 q size uv alpha lang spelling)
                 (search_api env api2 q size uv alpha lang spelling).
Proof.
  unfold search_api, post_search.
  apply same_bind.
  - apply same_if; [| apply same_ret].
    apply same_try_except.
    + auto 30 with same.
    + intros e k Hk. injection Hk as <-. auto 10 with same.
  - intros sq. apply same_try_except.
    + auto 30 with same.
    + intros e k Hk.
      destruct (is_Timeout e); [injection Hk as <-; auto 10 with same |].
      destruct (is_RequestException e); [injection Hk as <-; auto 10 with same |].
      discriminate Hk.
Qed.

(** * Statements of the specification *)

(** ** C1: failure of the spelling call *)

(** C1, and where the code departs from it: when the spelling call fails,
    [search_api] goes on exactly as with spelling correction off, after the
    spelling request: the main search is issued with the raw query. The
    warning of the claim is emitted when the call raises (a timeout or any
    other exception, an undecodable body, a body that is no JSON object). An
    answer with a status other than 200 is the case the code misses: it has
    no [else] to its test of the status, and passes over the failure without
    the warning. *)
Theorem spelling_failure_falls_back env api q size uv alpha lang h warn :
  spelling_failure (api h (spell_request env q)) warn ->
  search_api env api q size uv alpha lang true h
  = prefixed [spell_request env q]
      (match warn with
       | Some msg =>
           [(InTab, EWarning [Lit "Spelling correction unavailable: "; Lit msg])]
       | None => []
       end)
      (search_api env api q size uv alpha lang false (spell_request env q :: h))
  /\ calls (search_api env api q size uv alpha lang false (spell_request env q :: h))
     = [search_request env lang
          (JObj [("query", JStr q); ("size", JInt size); ("alpha", JFloat alpha);
                 ("use_vector", JBool uv)])]
  /\ warnings (ui (search_api env api q size uv alpha lang true h))
     = match warn with
       | Some msg => [[Lit "Spelling correction unavailable: "; Lit msg]]
       | None => []
       end.
Proof.
  intros F.
  assert (E : search_api env api q size uv alpha lang true h
              = prefixed [spell_request env q]
                  (match warn with
                   | Some msg =>
                       [(InTab, EWarning [Lit "Spelling correction unavailable: ";
                                          Lit msg])]
                   | None => []
                   end)
                  (search_api env api q size uv alpha lang false
                     (spell_request env q :: h))).
  { rewrite search_api_spelling, search_api_plain. cbv zeta.
    inversion F as [e He | r Hs He | r msg Hs Hc He | r e Hs Hc He
                   | r v Hs Hc Hv He]; subst.
    - reflexivity.
    - apply Z.eqb_neq in Hs. rewrite Hs. reflexivity.
    - apply Z.eqb_eq in Hs. rewrite Hs, Hc. reflexivity.
    - apply Z.eqb_eq in Hs. rewrite Hs, Hc. reflexivity.
    - apply Z.eqb_eq in Hs. rewrite Hs, Hc.
      destruct v; try reflexivity. exfalso. eapply Hv. reflexivity. }
  split; [exact E |]. split.
  - rewrite search_api_plain. apply post_search_calls.
  - rewrite E, ui_prefixed, search_api_plain. unfold warnings.
    rewrite flat_map_app.
    destruct (post_search_ui env api (JStr q) size uv alpha lang (spell_request env q :: h))
      as [_ W].
    unfold warnings in W. rewrite W, app_nil_r.
    destruct warn; reflexivity.
Qed.

(** The two paths side by side: a spelling call that times out leads to the
    warning; a spelling endpoint that answers 500 leads to none. *)
Lemma spelling_failure_falls_back_witness :
  let found := ok_json (JObj [("total-hits", JInt 0)]) in
  let o := search_api None (stub_api timed_out found server_error)
             "alminium" 10 true float_half "az" true [] in
  let o' := search_api None (stub_api server_error found server_error)
              "alminium" 10 true float_half "az" true [] in
  (res o = Ok (JObj [("total-hits", JInt 0)])
   /\ warnings (ui o)
      = [[Lit "Spelling correction unavailable: ";
          Lit "HTTPSConnectionPool(host='dmitriykuramshin-demoapi.hf.space', port=443): Read timed out."]]
   /\ map req_json (calls o)
      = [JObj [("query", JStr "alminium")];
         JObj [("query", JStr "alminium"); ("size", JInt 10); ("alpha", JFloat float_half);
               ("use_vector", JBool true)]])
  /\ (res o' = Ok (JObj [("total-hits", JInt 0)])
      /\ warnings (ui o') = []
      /\ map req_json (calls o') = map req_json (calls o)).
Proof.
  cbv zeta.
  destruct (spelling_failure_falls_back None
              (stub_api timed_out (ok_json (JObj [("total-hits", JInt 0)])) server_error)
              "alminium" 10 true float_half "az" []
              (Some "HTTPSConnectionPool(host='dmitriykuramshin-demoapi.hf.space', port=443): Read timed out.")
              (fail_raised (mk_exn ExTimeout _))) as (E & _ & _).
  destruct (spelling_failure_falls_back None
              (stub_api server_error (ok_json (JObj [("total-hits", JInt 0)])) server_error)
              "alminium" 10 true float_half "az" [] None
              (fail_status
                 (mk_response 500 "Internal Server Error" ""
                    (NotJson "Expecting value: line 1 column 1 (char 0)"))
                 ltac:(discriminate))) as (E' & _ & W').
  rewrite E, E'. split; [repeat split; reflexivity |].
  split; [reflexivity |]. split; [| reflexivity].
  rewrite <- E'. exact W'.
Defined.

(** C1 at the failing input: the spelling endpoint answers 500, the search
    runs with the raw query, and nothing is shown for the failure. *)
Lemma spelling_status_500_no_warning :
  let api := stub_api server_error (ok_json (JObj [("total-hits", JInt 0)])) server_error in
  let o := search_api None api "alminium" 10 true float_half "az" true [] in
  api [] (spell_request None "alminium") = server_error
  /\ map req_json (calls o)
     = [JObj [("query", JStr "alminium")];
        JObj [("query", JStr "alminium"); ("size", JInt 10); ("alpha", JFloat float_half);
              ("use_vector", JBool true)]]
  /\ res o = Ok (JObj [("total-hits", JInt 0)])
  /\ ui o = [].
Proof. cbv zeta. repeat split; reflexivity. Qed.

(** ** C2: the title of a block *)




(** ** C3: the score line *)

(** C3 fails on the code: a hit whose score is 0.0 is rendered to the end
    without a score line, where the same hit with score 0.5 has the line
    [**Score:** 0.5000]. *)
Theorem zero_score_line_omitted :
  let record := JObj [("code", JStr "7606"); ("name_en_d4", JStr "Aluminium plates")] in
  let hit score := JObj [("_source", record); ("_score", JFloat score)] in
  res (render_hit "en" 1 (hit (S754_zero false)) []) = Ok tt
  /\ score_lines (ui (render_hit "en" 1 (hit (S754_zero false)) [])) = []
  /\ score_lines (ui (render_hit "en" 1 (hit float_half) []))
     = [(InCol1 1, EMarkdown [Lit "**Score:** "; Lit "0.5000"])].
Proof. cbv zeta. repeat split; reflexivity. Qed.

(** The organization tab tests the score the same way. *)
Lemma zero_score_line_omitted_org :
  let org score := JObj [("name", JStr "United Nations"); ("score", JFloat score)] in
  score_lines (ui (render_org 1 (org (S754_zero false)) [])) = []
  /\ score_lines (ui (render_org 1 (org float_half) []))
     = [(InCol2 1, EMarkdown [Lit "**Score:** "; Lit "0.5000"])].
Proof. cbv zeta. split; reflexivity. Qed.

(** ** C4: a timeout of the organization search *)

(** C4 fails on the code: when the call times out, [search_organizations]
    reports the generic request failure, where the main call of [search_api]
    reports the timeout by its own message. *)
Theorem organizations_timeout_is_generic env api term q size uv alpha lang h e :
  is_Timeout e = true ->
  (api h (organizations_request env
            (JObj [("search_term", JStr term); ("index", JStr "organizations_v3");
                   ("size", JInt size)])) = Raises e ->
   ui (search_organizations env api term size h)
   = [(InTab, EError [Lit "❌ Request failed: "; Lit (exn_msg e)])])
  /\ (api h (search_request env lang
               (JObj [("query", JStr q); ("size", JInt size); ("alpha", JFloat alpha);
                      ("use_vector", JBool uv)])) = Raises e ->
      ui (search_api env api q size uv alpha lang false h)
      = [(InTab, EError [Lit "⏱️ Request timed out. Please try again."])]).
Proof.
  intros T. split; intros Ha.
  - rewrite search_organizations_run. cbv zeta. rewrite Ha.
    assert (R : is_RequestException e = true).
    { unfold is_Timeout in T. unfold is_RequestException.
      destruct (exn_cls e); try discriminate T; reflexivity. }
    rewrite R. reflexivity.
  - rewrite search_api_plain, post_search_run. cbv zeta. rewrite Ha, T. reflexivity.
Qed.

Lemma organizations_timeout_is_generic_witness :
  let api := stub_api server_error timed_out timed_out in
  ui (search_organizations None api "UN" 10 [])
  = [(InTab, EError [Lit "❌ Request failed: ";
                     Lit "HTTPSConnectionPool(host='dmitriykuramshin-demoapi.hf.space', port=443): Read timed out."])]
  /\ ui (search_api None api "aluminium" 10 true float_half "en" false [])
     = [(InTab, EError [Lit "⏱️ Request timed out. Please try again."])].
Proof.
  cbv zeta.
  destruct (organizations_timeout_is_generic None
              (stub_api server_error timed_out timed_out)
              "UN" "aluminium" 10 true float_half "en" []
              (mk_exn ExTimeout "HTTPSConnectionPool(host='dmitriykuramshin-demoapi.hf.space', port=443): Read timed out.")
              eq_refl) as [O S].
  split; [exact (O eq_refl) | exact (S eq_refl)].
Defined.

(** ** C5: the payloads *)

(** C5, as the code has it: the main call of [search_api] is one POST to
    [/search/{language}] whose payload has the keys [query], [size], [alpha]
    and [use_vector], in this order, with the size, alpha and flag of the
    request as an int, a float and a bool; the query is the raw query as a
    string when spelling correction is off. The call of
    [search_organizations] is one POST to [/organizations] with the keys
    [search_term], [index] and [size], the index being ["organizations_v3"].
    This holds for every request, so for every valid one. *)
Theorem payload_shape env api q size uv alpha lang spelling term h :
  (exists sq,
      calls (search_api env api q size uv alpha lang spelling h)
      = ((if spelling then [spell_request env q] else [])
         ++ [mk_request "POST" (API_BASE_URL env ++ "/search/" ++ lang)
               (JObj [("query", sq); ("size", JInt size); ("alpha", JFloat alpha);
                      ("use_vector", JBool uv)])
               [("Content-Type", "application/json")] 30])%list
      /\ (spelling = false -> sq = JStr q))
  /\ calls (search_organizations env api term size h)
     = [mk_request "POST" (API_BASE_URL env ++ "/organizations")
          (JObj [("search_term", JStr term); ("index", JStr "organizations_v3");
                 ("size", JInt size)])
          [("Content-Type", "application/json")] 30].
Proof.
  split.
  - destruct spelling.
    + rewrite search_api_spelling. cbv zeta.
      destruct (api h (spell_request env q)) as [r | e];
        [destruct (status_code r =? 200);
         [destruct (content r) as [v | msg | e'];
          [destruct v; [.. | destruct (py_ne_str _ q)] | |] |] |];
        eexists; rewrite calls_prefixed, post_search_calls;
        (split; [reflexivity | discriminate]).
    + exists (JStr q). rewrite search_api_plain, post_search_calls.
      split; reflexivity.
  - rewrite search_organizations_run. cbv zeta.
    destruct (api h _) as [r | e].
    + destruct ((400 <=? status_code r) && (status_code r <? 500)); [reflexivity |].
      destruct ((500 <=? status_code r) && (status_code r <? 600)); [reflexivity |].
      destruct (content r) as [v | msg | e]; try reflexivity.
      destruct (is_RequestException e); reflexivity.
    + destruct (is_RequestException e); reflexivity.
Qed.

(** C5, as stated, fails: the payloads of a valid request carry the keys
    [use_vector] and [search_term], not [useVector] and [searchTerm]. *)
Lemma payload_keys_snake_case :
  let api := stub_api server_error (ok_json (JObj [])) (ok_json (JObj [])) in
  map (fun r => payload_keys (req_json r))
    (calls (search_api None api "aluminium" 10 true float_half "en" false []))
  = [["query"; "size"; "alpha"; "use_vector"]]
  /\ map (fun r => payload_keys (req_json r))
       (calls (search_organizations None api "UN" 10 []))
     = [["search_term"; "index"; "size"]]
  /\ ~ In "useVector" ["query"; "size"; "alpha"; "use_vector"]
  /\ ~ In "searchTerm" ["search_term"; "index"; "size"].
Proof.
  cbv zeta. repeat split; try reflexivity.
  - cbn. intros [H | [H | [H | [H | []]]]]; discriminate H.
  - cbn. intros [H | [H | [H | []]]]; discriminate H.
Qed.

(** ** C6: blank input *)

(** C6: on a submission whose query (or search term) is empty or only
    whitespace, the tab issues no request and renders its warning, and
    nothing else. *)
Theorem blank_input_no_request env api lang q size alpha uv spelling h :
  blank q ->
  search_tab env api lang (mk_search_form q size alpha uv spelling true) h
  = Out (Ok tt) [] [(InTab, EWarning [Lit "⚠️ Please enter a query."])]
  /\ tab4 env api (mk_org_form q size true) h
     = Out (Ok tt) [] [(InTab, EWarning [Lit "⚠️ Please enter a search term."])].
Proof.
  intros B. unfold search_tab, tab4.
  cbn [submitted query submitted_org search_term].
  rewrite (py_strip_blank q B). split; reflexivity.
Qed.

Lemma blank_input_no_request_witness :
  let api := stub_api server_error server_error server_error in
  let q := String " " (String (ascii_of_nat 194) (String (ascii_of_nat 160) (String (ascii_of_nat 9) ""))) in
  List.length (calls (tab1 None api (mk_search_form q 10 float_half true true true) [])) = 0%nat
  /\ List.length (calls (tab4 None api (mk_org_form q 10 true) [])) = 0%nat.
Proof.
  cbv zeta.
  destruct (blank_input_no_request None
              (stub_api server_error server_error server_error) "az"
              (String " " (String (ascii_of_nat 194) (String (ascii_of_nat 160)
                 (String (ascii_of_nat 9) ""))))
              10 float_half true true [])
    as [S O].
  - apply blank_1; [reflexivity |].
    apply blank_2; [reflexivity |].
    apply blank_1; [reflexivity |].
    apply blank_empty.
  - unfold tab1. rewrite S, O. split; reflexivity.
Defined.

(** ** C7: a correction equal to the query *)

(** C7: when the spelling endpoint answers 200 with a corrected query equal
    to the raw query, [search_api] goes on exactly as with spelling
    correction off: the search is issued with the raw query, and neither a
    correction note nor a warning is emitted. *)
Theorem spelling_noop env api q size uv alpha lang h r o :
  api h (spell_request env q) = Resp r ->
  status_code r = 200 ->
  content r = JsonBody (JObj o) ->
  dict_lookup "corrected_query" o = Some (JStr q) ->
  let run := search_api env api q size uv alpha lang true h in
  run = prefixed [spell_request env q] []
          (search_api env api q size uv alpha lang false (spell_request env q :: h))
  /\ calls run
     = [spell_request env q;
        search_request env lang
          (JObj [("query", JStr q); ("size", JInt size); ("alpha", JFloat alpha);
                 ("use_vector", JBool uv)])]
  /\ notes (ui run) = []
  /\ warnings (ui run) = [].
Proof.
  intros Ha Hs Hc Hq run.
  assert (E : run = prefixed [spell_request env q] []
                      (search_api env api q size uv alpha lang false
                         (spell_request env q :: h))).
  { unfold run. rewrite search_api_spelling, search_api_plain. cbv zeta.
    rewrite Ha. apply Z.eqb_eq in Hs. rewrite Hs, Hc.
    unfold dict_get. rewrite Hq. cbn. rewrite String.eqb_refl. reflexivity. }
  split; [exact E |].
  rewrite E, search_api_plain, calls_prefixed, ui_prefixed, post_search_calls.
  destruct (post_search_ui env api (JStr q) size uv alpha lang (spell_request env q :: h))
    as [N W].
  repeat split; assumption.
Qed.

Lemma spelling_noop_witness :
  let api := stub_api (ok_json (JObj [("corrected_query", JStr "aluminium")]))
               (ok_json (JObj [("total-hits", JInt 0)])) server_error in
  let run := search_api None api "aluminium" 10 true float_half "en" true [] in
  map req_json (calls run)
  = [JObj [("query", JStr "aluminium")];
     JObj [("query", JStr "aluminium"); ("size", JInt 10); ("alpha", JFloat float_half);
           ("use_vector", JBool true)]]
  /\ notes (ui run) = []
  /\ warnings (ui run) = [].
Proof.
  cbv zeta.
  destruct (spelling_noop None
              (stub_api (ok_json (JObj [("corrected_query", JStr "aluminium")]))
                 (ok_json (JObj [("total-hits", JInt 0)])) server_error)
              "aluminium" 10 true float_half "en" []
              (mk_response 200 "OK" "" (JsonBody (JObj [("corrected_query", JStr "aluminium")])))
              [("corrected_query", JStr "aluminium")]
              eq_refl eq_refl eq_refl eq_refl) as (_ & C & N & W).
  rewrite C. repeat split; assumption.
Defined.

(** ** C8: the same request twice *)

(** C8: a language tab run on the same form against two APIs that answer
    alike from there on, or twice against one API that answers the second
    time as the first, ends the same way, with the same requests issued and
    the same elements rendered. *)
Theorem same_request_same_blocks env api1 api2 lang f h1 h2 :
  agree api1 api2 h1 h2 ->
  search_tab env api1 lang f h1 = search_tab env api2 lang f h2.
Proof.
  intros Hag. revert h1 h2 Hag. change (same api1 api2 (search_tab env api1 lang f)
                                                      (search_tab env api2 lang f)).
  pose proof (same_search_api env api1 api2).
  pose proof (same_show_results api1 api2).
  unfold search_tab, st_spinner. auto 30 with same.
Qed.

Lemma same_request_same_blocks_witness :
  let api := stub_api server_error
               (ok_json (JObj [("total-hits", JInt 1);
                               ("Ranked-objects",
                                JArr [JObj [("code", JStr "7606"); ("_score", JInt 2)]])]))
               server_error in
  let f := mk_search_form "aluminium" 10 float_half true false true in
  let first := tab2 None api f [] in
  ui (tab2 None api f (rev (calls first))) = ui first
  /\ titles (ui first) = [[Lit "#"; Val (JInt 1); Lit " - "; Val (JStr "7606")]].
Proof.
  cbv zeta. split; [| reflexivity].
  unfold tab2.
  rewrite (same_request_same_blocks None
             (stub_api server_error
                (ok_json (JObj [("total-hits", JInt 1);
                                ("Ranked-objects",
                                 JArr [JObj [("code", JStr "7606"); ("_score", JInt 2)]])]))
                server_error)
             (stub_api server_error
                (ok_json (JObj [("total-hits", JInt 1);
                                ("Ranked-objects",
                                 JArr [JObj [("code", JStr "7606"); ("_score", JInt 2)]])]))
                server_error)
             "en" (mk_search_form "aluminium" 10 float_half true false true)
             (rev (calls (search_tab None
                (stub_api server_error
                   (ok_json (JObj [("total-hits", JInt 1);
                                   ("Ranked-objects",
                                    JArr [JObj [("code", JStr "7606"); ("_score", JInt 2)]])]))
                   server_error)
                "en" (mk_search_form "aluminium" 10 float_half true false true) [])))
             []).
  - reflexivity.
  - intros c r. reflexivity.
Defined.

(** ** C9: flat and nested hits *)

(** C9, as the code has it: for a hit object without ['_source'], the hit
    itself is the product record: its block is titled by its own fields, and
    it renders exactly like every nested hit with the same ['_score'] whose
    record under ['_source'] has the same fields, as far as the tab reads
    them. It is rendered to the end when its score in use is falsy or a
    number in the range of floats and its tradings are falsy or a list of
    objects. *)
Theorem flat_hit_is_its_record lang i ho h :
  dict_lookup "_source" ho = None ->
  titles (ui (render_hit lang i (JObj ho) h))
  = [[Lit "#"; Val (JInt i); Lit " - "; Val (display_name lang ho)]]
  /\ (forall no so,
        dict_lookup "_source" no = Some (JObj so) ->
        (forall k, In k (record_keys lang) -> dict_lookup k so = dict_lookup k ho) ->
        dict_get no "_score" JNull = dict_get ho "_score" JNull ->
        render_hit lang i (JObj no) h = render_hit lang i (JObj ho) h)
  /\ (score_ok (hit_score ho ho) = true ->
      tradings_ok (dict_get ho "tradings" (JArr [])) = true ->
      res (render_hit lang i (JObj ho) h) = Ok tt).
Proof.
  intros Hflat.
  assert (Hs : dict_get ho "_source" (JObj ho) = JObj ho)
    by (unfold dict_get; rewrite Hflat; reflexivity).
  split; [| split].
  - apply (render_hit_title lang i ho ho h Hs).
  - intros no so Hn Hk Hc.
    apply (render_hit_reads lang i no ho so ho h); try assumption.
    unfold dict_get. rewrite Hn. reflexivity.
  - intros Hscore Htr.
    destruct (total_render_hit lang i (JObj ho)) with (h := h) as ([] & ws & E).
    + cbn [hit_ok]. rewrite Hs, Hscore, Htr. reflexivity.
    + rewrite E. reflexivity.
Qed.

Lemma flat_hit_is_its_record_witness :
  let record := [("code", JStr "7606"); ("name_en_d4", JStr "Aluminium plates");
                 ("tradings", JArr [JObj [("tradeName", JStr "Export")]])] in
  let flat := JObj (("_score", JFloat float_half) :: record) in
  let nested := JObj [("_source", JObj record); ("_score", JFloat float_half)] in
  render_hit "en" 1 nested [] = render_hit "en" 1 flat []
  /\ res (render_hit "en" 1 flat []) = Ok tt
  /\ score_lines (ui (render_hit "en" 1 flat []))
     = [(InCol1 1, EMarkdown [Lit "**Score:** "; Lit "0.5000"])].
Proof.
  cbv zeta.
  destruct (flat_hit_is_its_record "en" 1
              [("_score", JFloat float_half);
               ("code", JStr "7606"); ("name_en_d4", JStr "Aluminium plates");
               ("tradings", JArr [JObj [("tradeName", JStr "Export")]])] []
              eq_refl) as (_ & N & R).
  split; [| split].
  - eapply N; [reflexivity | | reflexivity].
    intros k Hk. cbn in Hk.
    repeat (destruct Hk as [<- | Hk]; [reflexivity |]). contradiction.
  - apply R; reflexivity.
  - reflexivity.
Defined.

(** C9, as stated, fails: a flat hit whose score is a string makes rendering
    fail, after the title and the code of its block. *)
Lemma flat_hit_string_score_fails :
  let hit := [("code", JStr "1234"); ("score", JStr "0.9")] in
  dict_lookup "_source" hit = None
  /\ render_hit "az" 1 (JObj hit) []
     = Out (Exc (mk_exn ExValueError "Unknown format code 'f' for object of type 'str'"))
         []
         [(InTab, EExpander [Lit "#"; Val (JInt 1); Lit " - "; Val (JStr "1234")]);
          (InExpander 1, EColumns [3; 1]);
          (InCol1 1, EMarkdown [Lit "**Code:** `"; Val (JStr "1234"); Lit "`"])].
Proof. cbv zeta. split; reflexivity. Qed.

(** So does a hit whose ['_source'] is null. *)
Lemma null_source_fails :
  render_hit "az" 1 (JObj [("_source", JNull); ("code", JStr "1234")]) []
  = Out (Exc (mk_exn ExAttributeError "'NoneType' object has no attribute 'get'")) [] [].
Proof. reflexivity. Qed.

(** A flat hit with a ['_score'] of its own and the nested hit that wraps it
    without one differ by the score line. *)
Lemma nested_hit_without_score_differs :
  let record := [("code", JStr "1234"); ("_score", JFloat float_half)] in
  score_lines (ui (render_hit "az" 1 (JObj record) []))
  = [(InCol1 1, EMarkdown [Lit "**Score:** "; Lit "0.5000"])]
  /\ score_lines (ui (render_hit "az" 1 (JObj [("_source", JObj record)]) [])) = [].
Proof. cbv zeta. split; reflexivity. Qed.

(** ** C10: the success banner *)

(** C10, as the code has it: the success banner of a language tab and of the
    organization tab shows the value under ['total-hits'] of the result, 0
    when the key is absent, whatever the list of results is; it is shown
    once when the result is a non-empty object, and not at all for any other
    result. A result with hits and no ['total-hits'] shows "Found 0 hits"
    and one block per hit when every hit can be rendered to the end. *)
Theorem banner_reads_total_hits lang result h :
  banners (ui (show_results lang result h))
  = match result with
    | JObj (kv :: o) =>
        [[Lit "✅ Found "; Val (dict_get (kv :: o) "total-hits" (JInt 0)); Lit " hits"]]
    | _ => []
    end
  /\ banners (ui (show_organizations result h))
     = match result with
       | JObj (kv :: o) =>
           [[Lit "✅ Found "; Val (dict_get (kv :: o) "total-hits" (JInt 0));
             Lit " organizations"]]
       | _ => []
       end
  /\ (forall o hits,
        result = JObj o ->
        dict_lookup "Ranked-objects" o = Some (JArr hits) ->
        forallb hit_ok hits = true ->
        res (show_results lang result h) = Ok tt
        /\ List.length (titles (ui (show_results lang result h))) = List.length hits
        /\ (dict_lookup "total-hits" o = None ->
            forall repr,
              map (py_format repr) (banners (ui (show_results lang result h)))
              = ["✅ Found 0 hits"]))
  /\ (forall o orgs,
        result = JObj o ->
        dict_lookup "results" o = Some (JArr orgs) ->
        forallb org_ok orgs = true ->
        res (show_organizations result h) = Ok tt
        /\ List.length (titles (ui (show_organizations result h))) = List.length orgs
        /\ (dict_lookup "total-hits" o = None ->
            forall repr,
              map (py_format repr) (banners (ui (show_organizations result h)))
              = ["✅ Found 0 organizations"])).
Proof.
  assert (B1 : banners (ui (show_results lang result h))
               = match result with
                 | JObj (kv :: o) =>
                     [[Lit "✅ Found "; Val (dict_get (kv :: o) "total-hits" (JInt 0));
                       Lit " hits"]]
                 | _ => []
                 end).
  { destruct result as [| b | z | f | s | l | [| kv o]];
      try (unfold show_results; cbn [py_truthy]; reflexivity).
    - unfold show_results. cbn [py_truthy]. destruct b; reflexivity.
    - unfold show_results. cbn [py_truthy]. destruct (negb (z =? 0)); reflexivity.
    - unfold show_results. destruct f; reflexivity.
    - unfold show_results. cbn [py_truthy]. destruct (negb (s =? "")%string); reflexivity.
    - unfold show_results. destruct l; reflexivity.
    - destruct (show_results_run lang (kv :: o) h) as (tail & Q & E & _);
        [discriminate |].
      rewrite E, ui_prefixed. unfold banners. rewrite flat_map_app.
      destruct (Q h) as [_ V]. rewrite V. reflexivity. }
  assert (B2 : banners (ui (show_organizations result h))
               = match result with
                 | JObj (kv :: o) =>
                     [[Lit "✅ Found "; Val (dict_get (kv :: o) "total-hits" (JInt 0));
                       Lit " organizations"]]
                 | _ => []
                 end).
  { destruct result as [| b | z | f | s | l | [| kv o]];
      try (unfold show_organizations; cbn [py_truthy]; reflexivity).
    - unfold show_organizations. cbn [py_truthy]. destruct b; reflexivity.
    - unfold show_organizations. cbn [py_truthy]. destruct (negb (z =? 0)); reflexivity.
    - unfold show_organizations. destruct f; reflexivity.
    - unfold show_organizations. cbn [py_truthy].
      destruct (negb (s =? "")%string); reflexivity.
    - unfold show_organizations. destruct l; reflexivity.
    - destruct (show_organizations_run (kv :: o) h) as (tail & Q & E & _);
        [discriminate |].
      rewrite E, ui_prefixed. unfold banners. rewrite flat_map_app.
      destruct (Q h) as [_ V]. rewrite V. reflexivity. }
  split; [exact B1 |]. split; [exact B2 |]. split.
  - intros o hits -> Hl Hok.
    assert (Ho : o <> []) by (destruct o; [discriminate Hl | discriminate]).
    destruct (show_results_run lang o h Ho) as (tail & Q & E & Hhits).
    destruct (Hhits hits Hl Hok) as [R L].
    split; [| split].
    + rewrite E, res_prefixed. exact R.
    + rewrite E, ui_prefixed. unfold titles. rewrite flat_map_app, length_app, L.
      reflexivity.
    + intros Ht repr. rewrite B1. destruct o as [| kv o]; [contradiction |].
      unfold dict_get. rewrite Ht. reflexivity.
  - intros o orgs -> Hl Hok.
    assert (Ho : o <> []) by (destruct o; [discriminate Hl | discriminate]).
    destruct (show_organizations_run o h Ho) as (tail & Q & E & Horgs).
    destruct (Horgs orgs Hl Hok) as [R L].
    split; [| split].
    + rewrite E, res_prefixed. exact R.
    + rewrite E, ui_prefixed. unfold titles. rewrite flat_map_app, length_app, L.
      reflexivity.
    + intros Ht repr. rewrite B2. destruct o as [| kv o]; [contradiction |].
      unfold dict_get. rewrite Ht. reflexivity.
Qed.

Lemma banner_reads_total_hits_witness :
  let body :=
    JObj [("Ranked-objects",
           JArr [JObj [("_source", JObj [("code", JStr "7606")]);
                       ("_score", JFloat float_half)];
                 JObj [("code", JStr "7607"); ("name_en_d4", JStr "Aluminium foil")]])] in
  let api := stub_api server_error (ok_json body) server_error in
  let run := tab2 None api (mk_search_form "aluminium" 10 float_half true false true) [] in
  res run = Ok tt
  /\ (forall repr, map (py_format repr) (banners (ui run)) = ["✅ Found 0 hits"])
  /\ List.length (titles (ui run)) = 2%nat.
Proof.
  intros body api run.
  assert (E : run = prefixed
                      [search_request None "en"
                         (JObj [("query", JStr "aluminium"); ("size", JInt 10);
                                ("alpha", JFloat float_half); ("use_vector", JBool true)])]
                      [(InTab, ESpinner [Lit "Searching..."])]
                      (show_results "en" body
                         [search_request None "en"
                            (JObj [("query", JStr "aluminium"); ("size", JInt 10);
                                   ("alpha", JFloat float_half);
                                   ("use_vector", JBool true)])])).
  { apply (search_tab_shows_body None api "en"
             (mk_search_form "aluminium" 10 float_half true false true) []
             (mk_response 200 "OK" "" (JsonBody body)) body);
      [reflexivity | discriminate | reflexivity | reflexivity | cbn; lia | reflexivity]. }
  rewrite E, res_prefixed, ui_prefixed.
  unfold banners, titles. rewrite !flat_map_app. cbn [flat_map banner_of title_of snd app].
  destruct (banner_reads_total_hits "en" body
              [search_request None "en"
                 (JObj [("query", JStr "aluminium"); ("size", JInt 10);
                        ("alpha", JFloat float_half); ("use_vector", JBool true)])])
    as (_ & _ & H & _).
  destruct (H _ _ eq_refl eq_refl eq_refl) as (R & L & B).
  split; [exact R |]. split; [exact (B eq_refl) | exact L].
Defined.

(** C10, as stated, fails on two answers with status 200. The body [{}] is
    falsy: no banner is shown for it, where the claim has "Found 0 hits". A
    body with four hits and no ['total-hits'], the second hit with a string
    for a score, shows "Found 0 hits" and two blocks, not four: the second
    block raises [ValueError] at its score and ends the rendering. *)
Lemma banner_not_for_every_response :
  let form := mk_search_form "aluminium" 10 float_half true false true in
  let good := JObj [("code", JStr "7606")] in
  let bad := JObj [("code", JStr "7607"); ("score", JStr "0.9")] in
  let hits := [good; bad; good; good] in
  let empty := tab2 None (stub_api server_error (ok_json (JObj [])) server_error) form [] in
  let run := tab2 None
               (stub_api server_error
                  (ok_json (JObj [("Ranked-objects", JArr hits)])) server_error)
               form [] in
  (res empty = Ok tt
   /\ ui empty = [(InTab, ESpinner [Lit "Searching..."])]
   /\ banners (ui empty) = [])
  /\ (banners (ui run) = [[Lit "✅ Found "; Val (JInt 0); Lit " hits"]]
      /\ List.length hits = 4%nat
      /\ titles (ui run)
         = [[Lit "#"; Val (JInt 1); Lit " - "; Val (JStr "7606")];
            [Lit "#"; Val (JInt 2); Lit " - "; Val (JStr "7607")]]
      /\ res run
         = Exc (mk_exn ExValueError "Unknown format code 'f' for object of type 'str'")).
Proof. cbv zeta. repeat split; reflexivity. Qed.

(** * Further properties of the code *)

(** ** The health check *)

(** [check_api_health], by the answer of the API. *)
Lemma check_api_health_run env api h :
  check_api_health env api true h
  = let raised e :=
      if is_RequestException e then
        Out (Ok tt) [health_request env]
          [(InTab, EError [Lit "❌ Cannot connect to API: "; Lit (exn_msg e)])]
      else Out (Exc e) [health_request env] [] in
    match api h (health_request env) with
    | Resp r =>
        if status_code r =? 200 then
          match content r with
          | JsonBody v =>
              Out (Ok tt) [health_request env]
                [(InTab, ESuccess [Lit "✅ API is reachable"]); (InTab, EJson v)]
          | NotJson msg =>
              Out (Ok tt) [health_request env]
                [(InTab, EError [Lit "❌ Cannot connect to API: "; Lit msg])]
          | DecoderRaises e => raised e
          end
        else
          Out (Ok tt) [health_request env]
            [(InTab, EError [Lit "⚠️ API returned status: "; Val (JInt (status_code r))])]
    | Raises e => raised e
    end.
Proof.
  unfold check_api_health, health_request, HEALTH_URL, try_except, bind, requests_get.
  cbv zeta.
  destruct (api h _) as [r | e].
  - destruct (status_code r =? 200); [| reflexivity].
    unfold response_json. destruct (content r) as [v | msg | e]; try reflexivity.
    cbn. destruct (is_RequestException e); reflexivity.
  - cbn. destruct (is_RequestException e); reflexivity.
Qed.

(** X1: the health check shows that the API is reachable exactly when the
    answer has status 200 and a body that decodes; for such an answer it
    issues its one request and shows the success message and then the
    decoded body as it is, and nothing else. *)
Theorem health_reachable_iff env api h :
  (banners (ui (check_api_health env api true h)) <> []
   <-> exists r v,
         api h (health_request env) = Resp r
         /\ status_code r = 200
         /\ content r = JsonBody v)
  /\ (forall r v,
        api h (health_request env) = Resp r ->
        status_code r = 200 ->
        content r = JsonBody v ->
        check_api_health env api true h
        = Out (Ok tt) [health_request env]
            [(InTab, ESuccess [Lit "✅ API is reachable"]); (InTab, EJson v)]).
Proof.
  rewrite check_api_health_run. cbv zeta. split; [split |].
  - destruct (api h (health_request env)) as [r | e].
    + destruct (status_code r =? 200) eqn:S.
      * destruct (content r) as [v | msg | e] eqn:C.
        -- intros _. exists r, v. apply Z.eqb_eq in S. repeat split; trivial.
        -- intros N. exfalso. apply N. reflexivity.
        -- destruct (is_RequestException e); intros N; exfalso; apply N; reflexivity.
      * intros N. exfalso. apply N. reflexivity.
    + destruct (is_RequestException e); intros N; exfalso; apply N; reflexivity.
  - intros (r & v & Ha & Hs & Hc). apply Z.eqb_eq in Hs. rewrite Ha, Hs, Hc.
    discriminate.
  - intros r v Ha Hs Hc. apply Z.eqb_eq in Hs. rewrite Ha, Hs, Hc. reflexivity.
Qed.

(** X2: an answer with any other status, a success status such as 204
    included, is reported as an error with the status; nothing is raised. *)
Theorem health_status_reported env api h r :
  api h (health_request env) = Resp r ->
  status_code r <> 200 ->
  check_api_health env api true h
  = Out (Ok tt) [health_request env]
      [(InTab, EError [Lit "⚠️ API returned status: "; Val (JInt (status_code r))])]
  /\ forall repr,
      map (py_format repr) (errors (ui (check_api_health env api true h)))
      = ["⚠️ API returned status: " ++ string_of_Z (status_code r)].
Proof.
  intros Ha Hs.
  assert (E : check_api_health env api true h
              = Out (Ok tt) [health_request env]
                  [(InTab, EError [Lit "⚠️ API returned status: ";
                                   Val (JInt (status_code r))])]).
  { rewrite check_api_health_run, Ha. apply Z.eqb_neq in Hs. rewrite Hs. reflexivity. }
  split; [exact E |]. intros repr. rewrite E. reflexivity.
Qed.

Lemma health_status_reported_witness :
  check_api_health None
    (fun _ _ => Resp (mk_response 204 "No Content" "" (NotJson ""))) true []
  = Out (Ok tt) [health_request None]
      [(InTab, EError [Lit "⚠️ API returned status: "; Val (JInt 204)])].
Proof.
  exact (proj1 (health_status_reported None
                  (fun _ _ => Resp (mk_response 204 "No Content" "" (NotJson "")))
                  [] (mk_response 204 "No Content" "" (NotJson "")) eq_refl
                  ltac:(discriminate))).
Defined.

(** X3: the health check issues one GET to [/deep-health] with a timeout of 5
    seconds when its button is clicked and none otherwise, whatever the
    answer. It ends with an exception, and then shows nothing, exactly when
    an exception that is no [RequestException] is raised by the call or by
    the decoding of the body of a 200 answer. Every failure of the call with
    a [RequestException], an undecodable body of a 200 answer included, is
    reported as a failure to connect. *)
Theorem health_check_one_probe env api clicked h :
  calls (check_api_health env api clicked h)
  = (if clicked then [mk_request "GET" (API_BASE_URL env ++ "/deep-health") JNull [] 5]
     else [])
  /\ (forall e,
        res (check_api_health env api clicked h) = Exc e
        <-> clicked = true
            /\ is_RequestException e = false
            /\ (api h (health_request env) = Raises e
                \/ exists r,
                     api h (health_request env) = Resp r
                     /\ status_code r = 200
                     /\ content r = DecoderRaises e))
  /\ (forall e,
        res (check_api_health env api clicked h) = Exc e ->
        ui (check_api_health env api clicked h) = [])
  /\ (forall msg,
        clicked = true ->
        call_failure (api h (health_request env)) msg ->
        (forall r, api h (health_request env) = Resp r -> status_code r = 200) ->
        ui (check_api_health env api clicked h)
        = [(InTab, EError [Lit "❌ Cannot connect to API: "; Lit msg])]).
Proof.
  destruct clicked.
  - rewrite check_api_health_run. cbv zeta. split; [| split; [| split]].
    + destruct (api h (health_request env)) as [r | e].
      * destruct (status_code r =? 200); [destruct (content r) as [v | msg | e] |];
          try reflexivity.
        destruct (is_RequestException e); reflexivity.
      * destruct (is_RequestException e); reflexivity.
    + intros e. split.
      * destruct (api h (health_request env)) as [r | e'].
        -- destruct (status_code r =? 200) eqn:S;
             [destruct (content r) as [v | msg | e'] eqn:C |]; try discriminate.
           destruct (is_RequestException e') eqn:R; [discriminate |].
           intros E. injection E as <-. apply Z.eqb_eq in S.
           split; [reflexivity |]. split; [exact R |].
           right. exists r. repeat split; trivial.
        -- destruct (is_RequestException e') eqn:R; [discriminate |].
           intros E. injection E as <-.
           split; [reflexivity |]. split; [exact R |]. left. reflexivity.
      * intros (_ & R & [Ha | (r & Ha & Hs & Hc)]).
        -- rewrite Ha, R. reflexivity.
        -- apply Z.eqb_eq in Hs. rewrite Ha, Hs, Hc, R. reflexivity.
    + intros e.
      destruct (api h (health_request env)) as [r | e'].
      * destruct (status_code r =? 200);
          [destruct (content r) as [v | msg | e'] |]; try discriminate.
        destruct (is_RequestException e'); [discriminate | reflexivity].
      * destruct (is_RequestException e'); [discriminate | reflexivity].
    + intros msg _ F H200.
      inversion F as [e R He | r Hr He | r Hr He | r m Hr Hc He]; subst;
        rewrite <- He in *.
      * rewrite R. reflexivity.
      * specialize (H200 r eq_refl). lia.
      * specialize (H200 r eq_refl). lia.
      * specialize (H200 r eq_refl). apply Z.eqb_eq in H200. rewrite H200, Hc.
        reflexivity.
  - split; [| split; [| split]].
    + reflexivity.
    + intros e. split; [discriminate | intros (C & _); discriminate C].
    + intros e. discriminate.
    + intros msg C. discriminate C.
Qed.

(** ** The tabs, from the form to the results *)

Lemma nonblank_test q :
  py_strip q <> "" -> negb (py_truthy (JStr (py_strip q))) = false.
Proof. intros Hq. cbn. destruct (py_strip q); [contradiction | reflexivity]. Qed.

Lemma run_emit_then {A B} c e (m : M A) (k : A -> M B) h :
  bind (bind (emit c e) (fun _ => m)) k h = prefixed [] [(c, e)] (bind m k h).
Proof.
  unfold bind. cbn [emit rev app].
  destruct (m h) as [[a | e'] cs ws]; cbn [prefixed app].
  - destruct (k a (rev cs ++ h)%list); reflexivity.
  - reflexivity.
Qed.

(** A language tab with a submitted, non-blank query: its spinner, the run
    of [search_api], and the results of what it returns. *)
Lemma search_tab_submitted env api lang f h :
  submitted f = true ->
  py_strip (query f) <> "" ->
  search_tab env api lang f h
  = prefixed [] [(InTab, ESpinner [Lit "Searching..."])]
      (bind (search_api env api (query f) (size f) (use_vector f) (alpha f) lang
               (use_spelling f))
         (show_results lang) h).
Proof.
  intros Hsub Hq. unfold search_tab, st_spinner.
  rewrite Hsub, (nonblank_test _ Hq). apply run_emit_then.
Qed.

Lemma tab4_submitted env api f h :
  submitted_org f = true ->
  py_strip (search_term f) <> "" ->
  tab4 env api f h
  = prefixed [] [(InTab, ESpinner [Lit "Searching organizations..."])]
      (bind (search_organizations env api (search_term f) (org_size f))
         show_organizations h).
Proof.
  intros Hsub Hq. unfold tab4, st_spinner.
  rewrite Hsub, (nonblank_test _ Hq). apply run_emit_then.
Qed.

(** The main call of [search_api] after a failure. *)
Lemma post_search_failure env api sq size uv alpha lang h msg :
  call_failure
    (api h (search_request env lang
              (JObj [("query", sq); ("size", JInt size); ("alpha", JFloat alpha);
                     ("use_vector", JBool uv)]))) msg ->
  post_search env api sq size uv alpha lang h
  = Out (Ok JNull)
      [search_request env lang
         (JObj [("query", sq); ("size", JInt size); ("alpha", JFloat alpha);
                ("use_vector", JBool uv)])]
      [(InTab,
        EError
          (if timed_out_call
                (api h (search_request env lang
                          (JObj [("query", sq); ("size", JInt size);
                                 ("alpha", JFloat alpha); ("use_vector", JBool uv)])))
           then [Lit "⏱️ Request timed out. Please try again."]
           else [Lit "❌ Request failed: "; Lit msg]))].
Proof.
  intros F. rewrite post_search_run. cbv zeta.
  inversion F as [e R He | r Hr He | r Hr He | r m Hr Hc He]; subst; cbn [timed_out_call].
  - destruct (is_Timeout e); [reflexivity |]. rewrite R. reflexivity.
  - replace ((400 <=? status_code r) && (status_code r <? 500)) with true
      by (symmetry; apply andb_true_iff; split; [apply Z.leb_le | apply Z.ltb_lt]; lia).
    reflexivity.
  - replace ((400 <=? status_code r) && (status_code r <? 500)) with false
      by (symmetry; apply andb_false_iff; right; apply Z.ltb_ge; lia).
    replace ((500 <=? status_code r) && (status_code r <? 600)) with true
      by (symmetry; apply andb_true_iff; split; [apply Z.leb_le | apply Z.ltb_lt]; lia).
    reflexivity.
  - replace ((400 <=? status_code r) && (status_code r <? 500)) with false
      by (symmetry; apply andb_false_iff;
          destruct Hr; [left; apply Z.leb_gt | right; apply Z.ltb_ge]; lia).
    replace ((500 <=? status_code r) && (status_code r <? 600)) with false
      by (symmetry; apply andb_false_iff;
          destruct Hr; [left; apply Z.leb_gt | right; apply Z.ltb_ge]; lia).
    rewrite Hc. reflexivity.
Qed.

Lemma search_organizations_failure env api term size h msg :
  call_failure
    (api h (organizations_request env
              (JObj [("search_term", JStr term); ("index", JStr "organizations_v3");
                     ("size", JInt size)]))) msg ->
  search_organizations env api term size h
  = Out (Ok JNull)
      [organizations_request env
         (JObj [("search_term", JStr term); ("index", JStr "organizations_v3");
                ("size", JInt size)])]
      [(InTab, EError [Lit "❌ Request failed: "; Lit msg])].
Proof.
  intros F. rewrite search_organizations_run. cbv zeta.
  inversion F as [e R He | r Hr He | r Hr He | r m Hr Hc He]; subst.
  - rewrite R. reflexivity.
  - replace ((400 <=? status_code r) && (status_code r <? 500)) with true
      by (symmetry; apply andb_true_iff; split; [apply Z.leb_le | apply Z.ltb_lt]; lia).
    reflexivity.
  - replace ((400 <=? status_code r) && (status_code r <? 500)) with false
      by (symmetry; apply andb_false_iff; right; apply Z.ltb_ge; lia).
    replace ((500 <=? status_code r) && (status_code r <? 600)) with true
      by (symmetry; apply andb_true_iff; split; [apply Z.leb_le | apply Z.ltb_lt]; lia).
    reflexivity.
  - replace ((400 <=? status_code r) && (status_code r <? 500)) with false
      by (symmetry; apply andb_false_iff;
          destruct Hr; [left; apply Z.leb_gt | right; apply Z.ltb_ge]; lia).
    replace ((500 <=? status_code r) && (status_code r <? 600)) with false
      by (symmetry; apply andb_false_iff;
          destruct Hr; [left; apply Z.leb_gt | right; apply Z.ltb_ge]; lia).
    rewrite Hc. reflexivity.
Qed.

(** ** Blank and non-blank input *)

Lemma blank_app a b : blank a -> blank b -> blank (a ++ b).
Proof.
  induction 1 as [| c s W _ IH | c d s W _ IH | c d e s W _ IH]; intros Hb; cbn.
  - exact Hb.
  - apply blank_1; auto.
  - apply blank_2; auto.
  - apply blank_3; auto.
Qed.

Lemma string_of_list_ascii_app l l' :
  string_of_list_ascii (l ++ l') = string_of_list_ascii l ++ string_of_list_ascii l'.
Proof. induction l as [| c l IH]; cbn; [reflexivity | rewrite IH; reflexivity]. Qed.

Lemma string_rev_cons c s : string_rev (String c s) = string_rev s ++ String c "".
Proof. unfold string_rev. cbn. apply string_of_list_ascii_app. Qed.

Lemma string_rev_involutive s : string_rev (string_rev s) = s.
Proof.
  unfold string_rev.
  rewrite list_ascii_of_string_of_list_ascii, rev_involutive.
  apply string_of_list_ascii_of_string.
Qed.

Lemma append_assoc (a b c : string) : (a ++ b) ++ c = a ++ b ++ c.
Proof. induction a as [| x a IH]; cbn; [reflexivity | rewrite IH; reflexivity]. Qed.

(** What [strip_front] drops is whitespace. *)
Lemma strip_front_split p2 p3 s :
  exists p, blank_by p2 p3 p /\ s = p ++ strip_front p2 p3 s.
Proof.
  assert (G : forall n s, (String.length s <= n)%nat ->
                exists p, blank_by p2 p3 p /\ s = p ++ strip_front p2 p3 s).
  { clear s. induction n as [| n IH]; intros s Hn.
    - destruct s; [| cbn in Hn; lia]. exists "". split; [constructor | reflexivity].
    - destruct s as [| c r]; [exists ""; split; [constructor | reflexivity] |].
      cbn in Hn. cbn [strip_front].
      destruct (ws1 c) eqn:W1.
      { destruct (IH r ltac:(lia)) as (p & Bp & E).
        exists (String c p). split; [apply blank_by_1; assumption |].
        cbn. rewrite <- E. reflexivity. }
      destruct r as [| d r']; [exists ""; split; [constructor | reflexivity] |].
      cbn in Hn.
      destruct (p2 c d) eqn:W2.
      { destruct (IH r' ltac:(lia)) as (p & Bp & E).
        exists (String c (String d p)). split; [apply blank_by_2; assumption |].
        cbn. rewrite <- E. reflexivity. }
      destruct r' as [| e r'']; [exists ""; split; [constructor | reflexivity] |].
      cbn in Hn.
      destruct (p3 c d e) eqn:W3.
      { destruct (IH r'' ltac:(lia)) as (p & Bp & E).
        exists (String c (String d (String e p))).
        split; [apply blank_by_3; assumption |].
        cbn. rewrite <- E. reflexivity. }
      exists "". split; [constructor | reflexivity]. }
  apply (G (String.length s)). lia.
Qed.

Lemma blank_by_forward s : blank_by ws2 ws3 s -> blank s.
Proof.
  induction 1; [apply blank_empty | apply blank_1 | apply blank_2 | apply blank_3];
    assumption.
Qed.

(** Whitespace read from the end is whitespace. *)
Lemma blank_by_backward t :
  blank_by (fun c d => ws2 d c) (fun c d e => ws3 e d c) t -> blank (string_rev t).
Proof.
  induction 1 as [| c s W _ IH | c d s W _ IH | c d e s W _ IH].
  - apply blank_empty.
  - rewrite string_rev_cons. apply blank_app; [exact IH |].
    apply blank_1; [exact W | apply blank_empty].
  - rewrite !string_rev_cons, append_assoc. apply blank_app; [exact IH |].
    cbn. apply blank_2; [exact W | apply blank_empty].
  - rewrite !string_rev_cons, !append_assoc. apply blank_app; [exact IH |].
    cbn. apply blank_3; [exact W | apply blank_empty].
Qed.

Lemma string_rev_empty s : string_rev s = "" -> s = "".
Proof.
  intros E. rewrite <- (string_rev_involutive s), E. reflexivity.
Qed.

Lemma py_rstrip_empty s : py_rstrip s = "" -> blank s.
Proof.
  unfold py_rstrip. intros E. apply string_rev_empty in E.
  destruct (strip_front_split (fun c d => ws2 d c) (fun c d e => ws3 e d c)
              (string_rev s)) as (p & Bp & Es).
  rewrite E in Es.
  assert (Ep : string_rev s = p).
  { rewrite Es. clear. induction p as [| c p IH]; cbn; [reflexivity |].
    rewrite IH. reflexivity. }
  rewrite <- Ep in Bp. apply blank_by_backward in Bp.
  rewrite string_rev_involutive in Bp. exact Bp.
Qed.

Lemma py_strip_empty_blank s : py_strip s = "" -> blank s.
Proof.
  unfold py_strip, py_lstrip. intros E. apply py_rstrip_empty in E.
  destruct (strip_front_split ws2 ws3 s) as (p & Bp & Es).
  rewrite Es. apply blank_app; [apply blank_by_forward; exact Bp | exact E].
Qed.

(** ** The requests of a run *)

Lemma calls_bind_offline {A B} (m : M A) (k : A -> M B) h :
  (forall a h', calls (k a h') = []) -> calls (bind m k h) = calls (m h).
Proof.
  intros Hk. unfold bind. destruct (m h) as [[a | e] cs ws]; [| reflexivity].
  rewrite calls_prefixed, Hk. apply app_nil_r.
Qed.

Lemma show_results_offline lang v h : calls (show_results lang v h) = [].
Proof.
  assert (Q : quiet (fun _ : widget => @nil unit) (show_results lang v)).
  { unfold show_results, render_hit, render_trading. auto 100 with quiet. }
  apply Q.
Qed.

Lemma show_organizations_offline v h : calls (show_organizations v h) = [].
Proof.
  assert (Q : quiet (fun _ : widget => @nil unit) (show_organizations v)).
  { unfold show_organizations, render_org. auto 100 with quiet. }
  apply Q.
Qed.

(** The requests of [search_api]: the spelling request when asked for, then
    the search request, whatever the answers. *)
Lemma search_api_calls env api q size uv alpha lang spelling h :
  exists sq,
    calls (search_api env api q size uv alpha lang spelling h)
    = ((if spelling then [spell_request env q] else [])
       ++ [search_request env lang
             (JObj [("query", sq); ("size", JInt size); ("alpha", JFloat alpha);
                    ("use_vector", JBool uv)])])%list.
Proof.
  destruct spelling.
  - rewrite search_api_spelling. cbv zeta.
    destruct (api h (spell_request env q)) as [r | e];
      [destruct (status_code r =? 200);
       [destruct (content r) as [v | msg | e'];
        [destruct v; [.. | destruct (py_ne_str _ q)] | |] |] |];
      eexists; rewrite calls_prefixed, post_search_calls; reflexivity.
  - exists (JStr q). rewrite search_api_plain, post_search_calls. reflexivity.
Qed.

Lemma search_organizations_calls env api term size h :
  calls (search_organizations env api term size h)
  = [organizations_request env
       (JObj [("search_term", JStr term); ("index", JStr "organizations_v3");
              ("size", JInt size)])].
Proof.
  rewrite search_organizations_run. cbv zeta.
  destruct (api h _) as [r | e].
  - destruct ((400 <=? status_code r) && (status_code r <? 500)); [reflexivity |].
    destruct ((500 <=? status_code r) && (status_code r <? 600)); [reflexivity |].
    destruct (content r) as [v | msg | e]; try reflexivity.
    destruct (is_RequestException e); reflexivity.
  - destruct (is_RequestException e); reflexivity.
Qed.

(** X4: a language tab issues requests exactly when its form is submitted
    with a query that is not blank: then the spelling request if asked for,
    and the search request, once each and in this order, whatever the API
    answers; nothing is sent again. *)
Theorem search_tab_requests env api lang f h :
  (calls (search_tab env api lang f h) = [] <-> submitted f = false \/ blank (query f))
  /\ (submitted f = true ->
      ~ blank (query f) ->
      exists sq,
        calls (search_tab env api lang f h)
        = ((if use_spelling f then [spell_request env (query f)] else [])
           ++ [search_request env lang
                 (JObj [("query", sq); ("size", JInt (size f));
                        ("alpha", JFloat (alpha f));
                        ("use_vector", JBool (use_vector f))])])%list).
Proof.
  assert (P : submitted f = true -> ~ blank (query f) ->
              exists sq,
                calls (search_tab env api lang f h)
                = ((if use_spelling f then [spell_request env (query f)] else [])
                   ++ [search_request env lang
                         (JObj [("query", sq); ("size", JInt (size f));
                                ("alpha", JFloat (alpha f));
                                ("use_vector", JBool (use_vector f))])])%list).
  { intros Hsub Hnb.
    assert (Hq : py_strip (query f) <> "")
      by (intros E; apply Hnb, py_strip_empty_blank, E).
    rewrite (search_tab_submitted env api lang f h Hsub Hq), calls_prefixed.
    rewrite calls_bind_offline by (intros; apply show_results_offline).
    apply search_api_calls. }
  split; [| exact P]. split.
  - intros E. destruct (submitted f) eqn:Hsub; [| left; reflexivity]. right.
    destruct (py_strip (query f)) as [| c s] eqn:Hq.
    + apply py_strip_empty_blank. exact Hq.
    + exfalso.
      assert (Hnb : ~ blank (query f)).
      { intros B. rewrite (py_strip_blank _ B) in Hq. discriminate Hq. }
      destruct (P eq_refl Hnb) as (sq & C). rewrite E in C.
      destruct (use_spelling f); discriminate C.
  - intros [Hsub | B].
    + unfold search_tab. rewrite Hsub. reflexivity.
    + unfold search_tab. destruct (submitted f); [| reflexivity].
      rewrite (py_strip_blank _ B). reflexivity.
Qed.

(** X5: the organization tab issues its one request exactly when its form is
    submitted with a search term that is not blank. *)
Theorem tab4_requests env api f h :
  (calls (tab4 env api f h) = [] <-> submitted_org f = false \/ blank (search_term f))
  /\ (submitted_org f = true ->
      ~ blank (search_term f) ->
      calls (tab4 env api f h)
      = [mk_request "POST" (API_BASE_URL env ++ "/organizations")
           (JObj [("search_term", JStr (search_term f));
                  ("index", JStr "organizations_v3"); ("size", JInt (org_size f))])
           [("Content-Type", "application/json")] 30]).
Proof.
  assert (P : submitted_org f = true -> ~ blank (search_term f) ->
              calls (tab4 env api f h)
              = [mk_request "POST" (API_BASE_URL env ++ "/organizations")
                   (JObj [("search_term", JStr (search_term f));
                          ("index", JStr "organizations_v3");
                          ("size", JInt (org_size f))])
                   [("Content-Type", "application/json")] 30]).
  { intros Hsub Hnb.
    assert (Hq : py_strip (search_term f) <> "")
      by (intros E; apply Hnb, py_strip_empty_blank, E).
    rewrite (tab4_submitted env api f h Hsub Hq), calls_prefixed.
    rewrite calls_bind_offline by (intros; apply show_organizations_offline).
    apply search_organizations_calls. }
  split; [| exact P]. split.
  - intros E. destruct (submitted_org f) eqn:Hsub; [| left; reflexivity]. right.
    destruct (py_strip (search_term f)) as [| c s] eqn:Hq.
    + apply py_strip_empty_blank. exact Hq.
    + exfalso.
      assert (Hnb : ~ blank (search_term f)).
      { intros B. rewrite (py_strip_blank _ B) in Hq. discriminate Hq. }
      rewrite (P eq_refl Hnb) in E. discriminate E.
  - intros [Hsub | B].
    + unfold tab4. rewrite Hsub. reflexivity.
    + unfold tab4. destruct (submitted_org f); [| reflexivity].
      rewrite (py_strip_blank _ B). reflexivity.
Qed.

(** ** Failed calls *)

(** X6: when the search call of a language tab fails (spelling correction
    off), the tab shows its spinner and one error, and nothing else: no
    banner, no block, no "No results found."; the error is the timeout
    text for a timeout and otherwise carries the message of the failure,
    which starts with the status for an answer from 400 to 599. *)
Theorem search_tab_failure env api lang f h msg :
  submitted f = true ->
  py_strip (query f) <> "" ->
  use_spelling f = false ->
  let rq := search_request env lang
              (JObj [("query", JStr (query f)); ("size", JInt (size f));
                     ("alpha", JFloat (alpha f)); ("use_vector", JBool (use_vector f))]) in
  call_failure (api h rq) msg ->
  search_tab env api lang f h
  = Out (Ok tt) [rq]
      [(InTab, ESpinner [Lit "Searching..."]);
       (InTab,
        EError (if timed_out_call (api h rq)
                then [Lit "⏱️ Request timed out. Please try again."]
                else [Lit "❌ Request failed: "; Lit msg]))].
Proof.
  intros Hsub Hq Hsp rq F.
  rewrite (search_tab_submitted env api lang f h Hsub Hq), Hsp.
  unfold bind. rewrite search_api_plain.
  rewrite (post_search_failure env api _ _ _ _ lang h msg F).
  reflexivity.
Qed.

Lemma search_tab_failure_witness :
  let not_found :=
    Resp (mk_response 404 "Not Found"
            "https://dmitriykuramshin-demoapi.hf.space/search/ru" (NotJson "")) in
  ui (tab3 None (stub_api server_error not_found server_error)
        (mk_search_form "алюминий" 10 float_half true false true) [])
  = [(InTab, ESpinner [Lit "Searching..."]);
     (InTab,
      EError [Lit "❌ Request failed: ";
              Lit "404 Client Error: Not Found for url: https://dmitriykuramshin-demoapi.hf.space/search/ru"])].
Proof.
  cbv zeta. unfold tab3.
  rewrite (search_tab_failure None
             (stub_api server_error
                (Resp (mk_response 404 "Not Found"
                         "https://dmitriykuramshin-demoapi.hf.space/search/ru"
                         (NotJson "")))
                server_error)
             "ru" (mk_search_form "алюминий" 10 float_half true false true) []
             "404 Client Error: Not Found for url: https://dmitriykuramshin-demoapi.hf.space/search/ru"
             eq_refl ltac:(discriminate) eq_refl
             (failure_client
                (mk_response 404 "Not Found"
                   "https://dmitriykuramshin-demoapi.hf.space/search/ru" (NotJson ""))
                ltac:(cbn; lia))).
  reflexivity.
Defined.

(** X7: when the call of the organization tab fails, a timeout included,
    the tab shows its spinner and the one error "Request failed" with the
    message of the failure, and nothing else. *)
Theorem tab4_failure env api f h msg :
  submitted_org f = true ->
  py_strip (search_term f) <> "" ->
  let rq := organizations_request env
              (JObj [("search_term", JStr (search_term f));
                     ("index", JStr "organizations_v3"); ("size", JInt (org_size f))]) in
  call_failure (api h rq) msg ->
  tab4 env api f h
  = Out (Ok tt) [rq]
      [(InTab, ESpinner [Lit "Searching organizations..."]);
       (InTab, EError [Lit "❌ Request failed: "; Lit msg])].
Proof.
  intros Hsub Hq rq F.
  rewrite (tab4_submitted env api f h Hsub Hq).
  unfold bind.
  rewrite (search_organizations_failure env api _ _ h msg F).
  reflexivity.
Qed.

Lemma tab4_failure_witness :
  ui (tab4 None (stub_api server_error server_error server_error)
        (mk_org_form "UN" 5 true) [])
  = [(InTab, ESpinner [Lit "Searching organizations..."]);
     (InTab,
      EError [Lit "❌ Request failed: ";
              Lit "500 Server Error: Internal Server Error for url: "])].
Proof.
  rewrite (tab4_failure None (stub_api server_error server_error server_error)
             (mk_org_form "UN" 5 true) []
             "500 Server Error: Internal Server Error for url: "
             eq_refl ltac:(discriminate)
             (failure_server
                (mk_response 500 "Internal Server Error" ""
                   (NotJson "Expecting value: line 1 column 1 (char 0)"))
                ltac:(cbn; lia))).
  reflexivity.
Defined.

Lemma timeout_is_request_exception e :
  is_RequestException e = false -> is_Timeout e = false.
Proof.
  unfold is_Timeout, is_RequestException. destruct (exn_cls e); intros R;
    try discriminate R; reflexivity.
Qed.

Lemma no_http_error_status z :
  (400 <=? z) && (z <? 500) = false /\ (500 <=? z) && (z <? 600) = false
  <-> z < 400 \/ 600 <= z.
Proof.
  rewrite !andb_false_iff, !Z.leb_gt, !Z.ltb_ge. lia.
Qed.

(** The main call of [search_api] ends with an exception exactly when one
    that is no [RequestException] is raised by the call or by the decoding of
    an answer that [raise_for_status] lets through. *)
Lemma post_search_raises env api sq size uv alpha lang h e :
  res (post_search env api sq size uv alpha lang h) = Exc e
  <-> is_RequestException e = false
      /\ (api h (search_request env lang
                   (JObj [("query", sq); ("size", JInt size);
                          ("alpha", JFloat alpha); ("use_vector", JBool uv)]))
          = Raises e
          \/ exists r,
               api h (search_request env lang
                        (JObj [("query", sq); ("size", JInt size);
                               ("alpha", JFloat alpha); ("use_vector", JBool uv)]))
               = Resp r
               /\ (status_code r < 400 \/ 600 <= status_code r)
               /\ content r = DecoderRaises e).
Proof.
  rewrite post_search_run. cbv zeta. split.
  - destruct (api h _) as [r | e'].
    + destruct ((400 <=? status_code r) && (status_code r <? 500)) eqn:S4;
        [discriminate |].
      destruct ((500 <=? status_code r) && (status_code r <? 600)) eqn:S5;
        [discriminate |].
      destruct (content r) as [v | msg | e'] eqn:C; try discriminate.
      destruct (is_Timeout e'); [discriminate |].
      destruct (is_RequestException e') eqn:R; [discriminate |].
      intros E. injection E as <-. split; [exact R |]. right. exists r.
      split; [reflexivity |]. split; [| exact C].
      apply no_http_error_status. split; assumption.
    + destruct (is_Timeout e'); [discriminate |].
      destruct (is_RequestException e') eqn:R; [discriminate |].
      intros E. injection E as <-. split; [exact R | left; reflexivity].
  - intros [R [Ha | (r & Ha & Hs & Hc)]]; rewrite Ha.
    + rewrite (timeout_is_request_exception e R), R. reflexivity.
    + apply no_http_error_status in Hs. destruct Hs as [S4 S5].
      rewrite S4, S5, Hc, (timeout_is_request_exception e R), R. reflexivity.
Qed.

(** X8: [search_api] and [search_organizations] end with an exception only
    with one that is no [RequestException], raised by their main call or by
    the decoding of its answer ([response.json()] on an answer that
    [raise_for_status] lets through); without spelling correction, and for
    [search_organizations], exactly then. No outcome of the spelling call
    makes [search_api] raise. *)
Theorem helpers_raise_only_foreign env api q size uv alpha lang spelling term h e :
  (res (search_api env api q size uv alpha lang spelling h) = Exc e ->
   is_RequestException e = false
   /\ exists sq,
        let h' := ((if spelling then [spell_request env q] else []) ++ h)%list in
        let rq := search_request env lang
                    (JObj [("query", sq); ("size", JInt size); ("alpha", JFloat alpha);
                           ("use_vector", JBool uv)]) in
        api h' rq = Raises e
        \/ exists r,
             api h' rq = Resp r
             /\ (status_code r < 400 \/ 600 <= status_code r)
             /\ content r = DecoderRaises e)
  /\ (let rq := search_request env lang
                  (JObj [("query", JStr q); ("size", JInt size); ("alpha", JFloat alpha);
                         ("use_vector", JBool uv)]) in
      res (search_api env api q size uv alpha lang false h) = Exc e
      <-> is_RequestException e = false
          /\ (api h rq = Raises e
              \/ exists r,
                   api h rq = Resp r
                   /\ (status_code r < 400 \/ 600 <= status_code r)
                   /\ content r = DecoderRaises e))
  /\ (let rq := organizations_request env
                  (JObj [("search_term", JStr term);
                         ("index", JStr "organizations_v3"); ("size", JInt size)]) in
      res (search_organizations env api term size h) = Exc e
      <-> is_RequestException e = false
          /\ (api h rq = Raises e
              \/ exists r,
                   api h rq = Resp r
                   /\ (status_code r < 400 \/ 600 <= status_code r)
                   /\ content r = DecoderRaises e)).
Proof.
  split; [| split].
  - destruct spelling.
    + rewrite search_api_spelling. cbv zeta. cbn [app].
      destruct (api h (spell_request env q)) as [r | e'];
        [destruct (status_code r =? 200);
         [destruct (content r) as [v | msg | e'];
          [destruct v; [.. | destruct (py_ne_str _ q)] | |] |] |];
        rewrite res_prefixed; intros E; apply post_search_raises in E;
        destruct E as [R E]; (split; [exact R | eexists; exact E]).
    + rewrite search_api_plain. intros E. apply post_search_raises in E.
      destruct E as [R E]. split; [exact R | exists (JStr q); exact E].
  - cbv zeta. rewrite search_api_plain. apply post_search_raises.
  - cbv zeta. rewrite search_organizations_run. cbv zeta. split.
    + destruct (api h _) as [r | e'].
      * destruct ((400 <=? status_code r) && (status_code r <? 500)) eqn:S4;
          [discriminate |].
        destruct ((500 <=? status_code r) && (status_code r <? 600)) eqn:S5;
          [discriminate |].
        destruct (content r) as [v | msg | e'] eqn:C; try discriminate.
        destruct (is_RequestException e') eqn:R; [discriminate |].
        intros E. injection E as <-. split; [exact R |]. right. exists r.
        split; [reflexivity |]. split; [| exact C].
        apply no_http_error_status. split; assumption.
      * destruct (is_RequestException e') eqn:R; [discriminate |].
        intros E. injection E as <-. split; [exact R | left; reflexivity].
    + intros [R [Ha | (r & Ha & Hs & Hc)]]; rewrite Ha.
      * rewrite R. reflexivity.
      * apply no_http_error_status in Hs. destruct Hs as [S4 S5].
        rewrite S4, S5, Hc, R. reflexivity.
Qed.

(** ** A correction that differs *)

(** X9: when the spelling endpoint answers 200 with a JSON object whose
    [corrected_query] differs from the query, [search_api] shows the note with
    the correction and sends the search with the correction in place of the
    query, as the answer gave it. *)
Theorem spelling_correction_applied env api q size uv alpha lang h r o :
  api h (spell_request env q) = Resp r ->
  status_code r = 200 ->
  content r = JsonBody (JObj o) ->
  py_ne_str (dict_get o "corrected_query" (JStr q)) q = true ->
  let corrected := dict_get o "corrected_query" (JStr q) in
  let run := search_api env api q size uv alpha lang true h in
  run = prefixed [spell_request env q]
          [(InTab, EInfo [Lit "✨ Using corrected query: `"; Val corrected; Lit "`"])]
          (post_search env api corrected size uv alpha lang (spell_request env q :: h))
  /\ calls run
     = [spell_request env q;
        search_request env lang
          (JObj [("query", corrected); ("size", JInt size); ("alpha", JFloat alpha);
                 ("use_vector", JBool uv)])]
  /\ notes (ui run) = [[Lit "✨ Using corrected query: `"; Val corrected; Lit "`"]]
  /\ warnings (ui run) = [].
Proof.
  intros Ha Hs Hc Hne corrected run.
  assert (E : run = prefixed [spell_request env q]
                      [(InTab, EInfo [Lit "✨ Using corrected query: `"; Val corrected;
                                      Lit "`"])]
                      (post_search env api corrected size uv alpha lang
                         (spell_request env q :: h))).
  { unfold run. rewrite search_api_spelling. cbv zeta.
    rewrite Ha. apply Z.eqb_eq in Hs. rewrite Hs, Hc, Hne. reflexivity. }
  split; [exact E |].
  rewrite E, calls_prefixed, ui_prefixed, post_search_calls.
  destruct (post_search_ui env api corrected size uv alpha lang (spell_request env q :: h))
    as [N W].
  unfold notes, warnings in *. rewrite !flat_map_app, N, W.
  repeat split; reflexivity.
Qed.

Lemma spelling_correction_applied_witness :
  let api := stub_api (ok_json (JObj [("corrected_query", JStr "aluminium")]))
               (ok_json (JObj [("total-hits", JInt 0)])) server_error in
  let run := search_api None api "alminium" 10 true float_half "en" true [] in
  map req_json (calls run)
  = [JObj [("query", JStr "alminium")];
     JObj [("query", JStr "aluminium"); ("size", JInt 10); ("alpha", JFloat float_half);
           ("use_vector", JBool true)]]
  /\ notes (ui run) = [[Lit "✨ Using corrected query: `"; Val (JStr "aluminium"); Lit "`"]].
Proof.
  cbv zeta.
  destruct (spelling_correction_applied None
              (stub_api (ok_json (JObj [("corrected_query", JStr "aluminium")]))
                 (ok_json (JObj [("total-hits", JInt 0)])) server_error)
              "alminium" 10 true float_half "en" []
              (mk_response 200 "OK" "" (JsonBody (JObj [("corrected_query", JStr "aluminium")])))
              [("corrected_query", JStr "aluminium")]
              eq_refl eq_refl eq_refl eq_refl) as (_ & C & N & _).
  rewrite C. split; [reflexivity | exact N].
Defined.

(** ** Steps that raise *)

Lemma fails_raise {A} e : fails (@raise A e).
Proof. intros h. exists e. reflexivity. Qed.

Lemma fails_bind {A B} (m : M A) (k : A -> M B) : fails m -> fails (bind m k).
Proof.
  intros Hm h. destruct (Hm h) as (e & E). exists e. unfold bind.
  destruct (m h) as [[a | e'] cs ws]; cbn in E; [discriminate E |].
  injection E as ->. reflexivity.
Qed.

Lemma fails_after {A B} (m : M A) (k : A -> M B) :
  total m -> (forall a, fails (k a)) -> fails (bind m k).
Proof.
  intros Hm Hk h. destruct (Hm h) as (a & ws & E).
  destruct (Hk a h) as (e & Ee). exists e.
  unfold bind. rewrite E. cbn [rev app]. rewrite res_prefixed. exact Ee.
Qed.

Lemma fails_bind_ret {A B} (a : A) (k : A -> M B) : fails (k a) -> fails (bind (ret a) k).
Proof. intros Hk h. rewrite run_bind_ret. apply Hk. Qed.

Lemma fails_not_total {A} (m : M A) h a : fails m -> res (m h) <> Ok a.
Proof. intros F E. destruct (F h) as (e & Ee). rewrite E in Ee. discriminate Ee. Qed.

Lemma fails_py_format_4f v : formattable v = false -> fails (py_format_4f v).
Proof.
  destruct v as [| b | z | f | s | l | o]; cbn; try discriminate; intros F h;
    try (eexists; reflexivity).
  unfold int_fixed4. destruct (int_to_float z); [discriminate F |].
  eexists; reflexivity.
Qed.

Lemma fails_render_trading i t : is_obj t = false -> fails (render_trading i t).
Proof.
  intros Ht. unfold render_trading. apply fails_bind.
  destruct t; try discriminate Ht; intros h; eexists; reflexivity.
Qed.

Lemma fails_for_each_trading i l :
  forallb is_obj l = false -> fails (for_each l (render_trading i)).
Proof.
  induction l as [| t l IH]; cbn [forallb for_each]; [discriminate |].
  destruct (is_obj t) eqn:Ht; cbn [andb]; intros Hl.
  - apply fails_after; [| intros _; apply IH; exact Hl].
    destruct t; try discriminate Ht. apply total_render_trading.
  - apply fails_bind. apply fails_render_trading. exact Ht.
Qed.

Lemma utf8_chars_cons c r : exists x xs, utf8_chars (String c r) = x :: xs.
Proof.
  cbn. destruct (utf8_chars r) as [| [| d x] xs]; [eexists; eexists; reflexivity .. |].
  destruct (is_continuation d); eexists; eexists; reflexivity.
Qed.

Lemma fails_tradings_block i tradings :
  tradings_ok tradings = false ->
  fails (if py_truthy tradings then
           emit (InCol2 i) (EMarkdown [Lit "**Tradings:**"]) ;;;
           ts <- py_iter tradings ;;
           for_each ts (render_trading i)
         else emit (InCol2 i) (EMarkdown [Lit "*No trading info*"])).
Proof.
  unfold tradings_ok. intros Hok. apply orb_false_iff in Hok. destruct Hok as [T L].
  apply negb_false_iff in T. rewrite T.
  apply fails_after; [apply total_emit | intros _].
  destruct tradings as [| b | z | f | s | l | o]; try discriminate T;
    try (apply fails_bind; intros h; eexists; reflexivity).
  - destruct s as [| c r]; [discriminate T |].
    cbn [py_iter]. apply fails_bind_ret.
    destruct (utf8_chars_cons c r) as (x & xs & E). rewrite E. cbn [map for_each].
    apply fails_bind. apply fails_render_trading. reflexivity.
  - cbn [py_iter]. apply fails_bind_ret. apply fails_for_each_trading. exact L.
  - destruct o as [| kv o]; [discriminate T |].
    cbn [py_iter map for_each]. apply fails_bind_ret. cbn [for_each].
    apply fails_bind. apply fails_render_trading. reflexivity.
Qed.

Lemma fails_score_block (c : container) score :
  score_ok score = false ->
  fails (if py_truthy score then
           text <- py_format_4f score ;;
           emit c (EMarkdown [Lit "**Score:** "; Lit text])
         else ret tt).
Proof.
  unfold score_ok. intros S. apply orb_false_iff in S. destruct S as [T F].
  apply negb_false_iff in T. rewrite T.
  apply fails_bind. apply fails_py_format_4f. exact F.
Qed.

Ltac fails_step :=
  first [ apply fails_bind_ret
        | apply fails_after; [apply total_emit | intros _] ].

Lemma fails_render_hit lang i hit : hit_ok hit = false -> fails (render_hit lang i hit).
Proof.
  intros Hok. unfold render_hit.
  destruct hit as [| | | | | | ho];
    try (apply fails_bind; intros h; eexists; reflexivity).
  cbn [hit_ok] in Hok. cbn [py_get]. apply fails_bind_ret.
  destruct (dict_get ho "_source" (JObj ho)) as [| | | | | | so] eqn:Hs;
    try (apply fails_bind; intros h; eexists; reflexivity).
  cbn [py_get]. repeat fails_step.
  unfold hit_score in Hok. cbv zeta in Hok.
  destruct (score_ok (if py_truthy (dict_get ho "_score" JNull)
                      then dict_get ho "_score" JNull
                      else dict_get so "score" JNull)) eqn:Hscore.
  - cbn [andb] in Hok.
    destruct (py_truthy (dict_get ho "_score" JNull)); apply fails_bind_ret;
      (apply fails_after; [apply total_score_block; exact Hscore | intros _]);
      repeat fails_step; apply fails_tradings_block; exact Hok.
  - destruct (py_truthy (dict_get ho "_score" JNull)); apply fails_bind_ret;
      apply fails_bind; apply fails_score_block; exact Hscore.
Qed.

Lemma fails_render_org i org : org_ok org = false -> fails (render_org i org).
Proof.
  intros Hok. unfold render_org.
  destruct org as [| | | | | | oo];
    try (apply fails_bind; intros h; eexists; reflexivity).
  cbn [org_ok] in Hok. cbn [py_get]. repeat fails_step.
  apply fails_bind. apply fails_score_block. exact Hok.
Qed.

(** ** Which hits are rendered to the end *)

(** X10: a hit is rendered to the end exactly when it is an object whose
    record is an object, whose score in use is falsy or a number in the range
    of floats, and whose tradings are falsy or a list of objects; every other
    hit makes [render_hit] raise. No request is issued either way. *)
Theorem hit_rendered_iff_ok lang i hit h :
  (res (render_hit lang i hit h) = Ok tt <-> hit_ok hit = true)
  /\ ((exists e, res (render_hit lang i hit h) = Exc e) <-> hit_ok hit = false)
  /\ calls (render_hit lang i hit h) = [].
Proof.
  assert (C : calls (render_hit lang i hit h) = []).
  { assert (Q : quiet (fun _ : widget => @nil unit) (render_hit lang i hit))
      by (unfold render_hit, render_trading; auto 100 with quiet).
    apply Q. }
  destruct (hit_ok hit) eqn:Hok.
  - destruct (total_render_hit lang i hit Hok h) as ([] & ws & E).
    rewrite E. cbn [res]. repeat split; trivial.
    + intros (e & Ee). discriminate Ee.
    + discriminate.
  - destruct (fails_render_hit lang i hit Hok h) as (e & E).
    rewrite E. repeat split; trivial; try discriminate.
    intros _. exists e. reflexivity.
Qed.

(** X11: an organization is rendered to the end exactly when it is an object
    whose score is falsy or a number in the range of floats; every other one
    makes [render_org] raise. *)
Theorem org_rendered_iff_ok i org h :
  (res (render_org i org h) = Ok tt <-> org_ok org = true)
  /\ ((exists e, res (render_org i org h) = Exc e) <-> org_ok org = false).
Proof.
  destruct (org_ok org) eqn:Hok.
  - destruct (total_render_org i org Hok h) as ([] & ws & E).
    rewrite E. cbn [res]. repeat split; trivial.
    + intros (e & Ee). discriminate Ee.
    + discriminate.
  - destruct (fails_render_org i org Hok h) as (e & E).
    rewrite E. repeat split; trivial; try discriminate.
    intros _. exists e. reflexivity.
Qed.

(** ** The blocks of a list of results *)

Lemma enumerate_app {A} (l l' : list A) start :
  enumerate start (l ++ l')
  = (enumerate start l ++ enumerate (start + Z.of_nat (List.length l)) l')%list.
Proof.
  revert start. induction l as [| x l IH]; intros start; cbn [app enumerate List.length].
  - rewrite Z.add_0_r. reflexivity.
  - replace (start + Z.of_nat (S (List.length l)))
      with (start + 1 + Z.of_nat (List.length l)) by lia.
    rewrite IH. reflexivity.
Qed.

Lemma nth_error_enumerate {A} (l : list A) start k x :
  nth_error l k = Some x ->
  nth_error (enumerate start l) k = Some (start + Z.of_nat k, x).
Proof.
  revert start k. induction l as [| y l IH]; intros start [| k] H; cbn in *;
    try discriminate.
  - injection H as ->. rewrite Z.add_0_r. reflexivity.
  - rewrite (IH (start + 1) k H).
    replace (start + 1 + Z.of_nat k) with (start + Z.of_nat (S k)) by lia.
    reflexivity.
Qed.

(** A loop whose body completes on every item and opens the expander [t x]
    for the item [x] opens these expanders, in order. *)
Lemma for_each_titles {A} (l : list A) (body : A -> M unit) (t : A -> fstring) h :
  (forall x, In x l -> total (body x)) ->
  (forall x h', In x l -> titles (ui (body x h')) = [t x]) ->
  titles (ui (for_each l body h)) = map t l.
Proof.
  induction l as [| x l IH]; intros Ht Hb; cbn [for_each map].
  - reflexivity.
  - unfold bind.
    destruct (Ht x (or_introl eq_refl) h) as ([] & ws & E).
    pose proof (Hb x h (or_introl eq_refl)) as Hx. rewrite E in Hx |- *. cbn [ui] in Hx.
    cbn [rev app]. rewrite ui_prefixed. unfold titles in *.
    rewrite flat_map_app, Hx, IH; [reflexivity | |].
    + intros y Hy. apply Ht. right. exact Hy.
    + intros y h' Hy. apply Hb. right. exact Hy.
Qed.

Lemma render_hit_title_ok lang i hit h :
  hit_ok hit = true -> titles (ui (render_hit lang i hit h)) = [hit_title lang i hit].
Proof.
  destruct hit as [| | | | | | ho]; try discriminate. cbn [hit_ok].
  destruct (dict_get ho "_source" (JObj ho)) as [| | | | | | so] eqn:Hs;
    try discriminate.
  intros _. rewrite (render_hit_title lang i ho so h Hs).
  unfold hit_title, record_of. rewrite Hs. reflexivity.
Qed.

Lemma render_org_title_ok i org h :
  org_ok org = true -> titles (ui (render_org i org h)) = [org_title i org].
Proof.
  destruct org as [| | | | | | oo]; try discriminate. intros _.
  unfold render_org. cbn [py_get]. rewrite run_bind_ret, run_bind_emit, ui_prefixed.
  match goal with
  | |- context [ui (bind ?m ?k h)] =>
      assert (Q : quiet title_of (bind m k)) by auto 60 with quiet;
      destruct (Q h) as [_ V]
  end.
  unfold titles. rewrite flat_map_app, V. reflexivity.
Qed.

(** X12: the blocks of a search result are numbered from 1 in the order of
    the response: when every hit can be rendered, the block of the hit at
    position [k] (from 0) is titled "#k+1 - " and the display name of that
    hit, and there are no other blocks. *)
Theorem result_blocks_numbered lang o hits h :
  dict_lookup "Ranked-objects" o = Some (JArr hits) ->
  forallb hit_ok hits = true ->
  titles (ui (show_results lang (JObj o) h))
  = map (fun ih => hit_title lang (fst ih) (snd ih)) (enumerate 1 hits)
  /\ forall k hit,
      nth_error hits k = Some hit ->
      nth_error (titles (ui (show_results lang (JObj o) h))) k
      = Some [Lit "#"; Val (JInt (1 + Z.of_nat k)); Lit " - ";
              Val (display_name lang (record_of hit))].
Proof.
  intros Hl Hok.
  assert (T : titles (ui (show_results lang (JObj o) h))
              = map (fun ih => hit_title lang (fst ih) (snd ih)) (enumerate 1 hits)).
  { unfold show_results.
    assert (Tr : py_truthy (JObj o) = true) by (destruct o; [discriminate Hl | reflexivity]).
    rewrite Tr. cbn [py_get]. rewrite run_bind_ret, run_bind_emit, run_bind_ret, ui_prefixed.
    assert (E : dict_get o "Ranked-objects" (JArr []) = JArr hits)
      by (unfold dict_get; rewrite Hl; reflexivity).
    rewrite E. unfold titles at 1. rewrite flat_map_app. cbn [flat_map title_of snd app].
    destruct hits as [| x l]; [reflexivity |].
    cbn [py_truthy negb py_iter]. rewrite run_bind_ret.
    apply for_each_titles.
    - intros [i y] Hy. apply total_render_hit.
      rewrite forallb_forall in Hok. apply Hok. eapply In_enumerate. exact Hy.
    - intros [i y] h' Hy. apply render_hit_title_ok.
      rewrite forallb_forall in Hok. apply Hok. eapply In_enumerate. exact Hy. }
  split; [exact T |].
  intros k hit Hk. rewrite T.
  rewrite nth_error_map, (nth_error_enumerate hits 1 k hit Hk). reflexivity.
Qed.

Lemma result_blocks_numbered_witness :
  titles (ui (show_results "en"
                (JObj [("Ranked-objects",
                        JArr [JObj [("_source", JObj [("name_en_d4", JStr "Plates")])];
                              JObj [("code", JStr "7607")]])])
                []))
  = [[Lit "#"; Val (JInt 1); Lit " - "; Val (JStr "Plates")];
     [Lit "#"; Val (JInt 2); Lit " - "; Val (JStr "7607")]].
Proof.
  exact (proj1 (result_blocks_numbered "en"
                  [("Ranked-objects",
                    JArr [JObj [("_source", JObj [("name_en_d4", JStr "Plates")])];
                          JObj [("code", JStr "7607")]])]
                  [JObj [("_source", JObj [("name_en_d4", JStr "Plates")])];
                   JObj [("code", JStr "7607")]]
                  [] eq_refl eq_refl)).
Defined.

(** X13: the blocks of an organization result are numbered the same way and
    titled by the name of the organization, "N/A" when it has none. *)
Theorem organization_blocks_numbered o orgs h :
  dict_lookup "results" o = Some (JArr orgs) ->
  forallb org_ok orgs = true ->
  titles (ui (show_organizations (JObj o) h))
  = map (fun io => org_title (fst io) (snd io)) (enumerate 1 orgs)
  /\ forall k oo,
      nth_error orgs k = Some (JObj oo) ->
      nth_error (titles (ui (show_organizations (JObj o) h))) k
      = Some [Lit "#"; Val (JInt (1 + Z.of_nat k)); Lit " - ";
              Val (dict_get oo "name" (JStr "N/A"))].
Proof.
  intros Hl Hok.
  assert (T : titles (ui (show_organizations (JObj o) h))
              = map (fun io => org_title (fst io) (snd io)) (enumerate 1 orgs)).
  { unfold show_organizations.
    assert (Tr : py_truthy (JObj o) = true) by (destruct o; [discriminate Hl | reflexivity]).
    rewrite Tr. cbn [py_get]. rewrite run_bind_ret, run_bind_emit, run_bind_ret, ui_prefixed.
    assert (E : dict_get o "results" (JArr []) = JArr orgs)
      by (unfold dict_get; rewrite Hl; reflexivity).
    rewrite E. unfold titles at 1. rewrite flat_map_app. cbn [flat_map title_of snd app].
    destruct orgs as [| x l]; [reflexivity |].
    cbn [py_truthy negb py_iter]. rewrite run_bind_ret.
    apply for_each_titles.
    - intros [i y] Hy. apply total_render_org.
      rewrite forallb_forall in Hok. apply Hok. eapply In_enumerate. exact Hy.
    - intros [i y] h' Hy. apply render_org_title_ok.
      rewrite forallb_forall in Hok. apply Hok. eapply In_enumerate. exact Hy. }
  split; [exact T |].
  intros k oo Hk. rewrite T.
  rewrite nth_error_map, (nth_error_enumerate orgs 1 k (JObj oo) Hk). reflexivity.
Qed.

Lemma organization_blocks_numbered_witness :
  titles (ui (show_organizations
                (JObj [("results",
                        JArr [JObj [("name", JStr "United Nations")];
                              JObj [("abbreviation", JStr "WTO")]])])
                []))
  = [[Lit "#"; Val (JInt 1); Lit " - "; Val (JStr "United Nations")];
     [Lit "#"; Val (JInt 2); Lit " - "; Val (JStr "N/A")]].
Proof.
  exact (proj1 (organization_blocks_numbered
                  [("results",
                    JArr [JObj [("name", JStr "United Nations")];
                          JObj [("abbreviation", JStr "WTO")]])]
                  [JObj [("name", JStr "United Nations")];
                   JObj [("abbreviation", JStr "WTO")]]
                  [] eq_refl eq_refl)).
Defined.

(** A loop stops at the first item on which its body raises. *)
Lemma for_each_stops {A} (l1 l2 l2' : list A) (x : A) (body : A -> M unit) h :
  (forall y, In y l1 -> total (body y)) ->
  fails (body x) ->
  for_each (l1 ++ x :: l2) body h = for_each (l1 ++ x :: l2') body h
  /\ exists e, res (for_each (l1 ++ x :: l2) body h) = Exc e.
Proof.
  intros Ht Hx. induction l1 as [| y l1 IH]; cbn [app for_each].
  - unfold bind. destruct (Hx h) as (e & E).
    destruct (body x h) as [[[] | e'] cs ws]; cbn in E; [discriminate E |].
    split; [reflexivity | exists e'; reflexivity].
  - unfold bind. destruct (Ht y (or_introl eq_refl) h) as ([] & ws & E). rewrite E.
    cbn [rev app]. destruct IH as [I (e & Ee)].
    { intros z Hz. apply Ht. right. exact Hz. }
    rewrite I, !res_prefixed. split; [reflexivity |].
    exists e. rewrite <- I. exact Ee.
Qed.

(** X14: a hit that cannot be rendered ends the rendering: the hits after it
    are never shown. With the same hits up to that one, the tab shows the
    same and raises the same, whatever follows in the response. *)
Theorem later_hits_not_rendered lang o o' pre bad post post' h :
  dict_lookup "Ranked-objects" o = Some (JArr (pre ++ bad :: post)) ->
  dict_lookup "Ranked-objects" o' = Some (JArr (pre ++ bad :: post')) ->
  dict_get o "total-hits" (JInt 0) = dict_get o' "total-hits" (JInt 0) ->
  forallb hit_ok pre = true ->
  hit_ok bad = false ->
  show_results lang (JObj o) h = show_results lang (JObj o') h
  /\ exists e, res (show_results lang (JObj o) h) = Exc e.
Proof.
  intros Hl Hl' Ht Hpre Hbad.
  assert (R : forall o1 l2,
             dict_lookup "Ranked-objects" o1 = Some (JArr (pre ++ bad :: l2)) ->
             show_results lang (JObj o1) h
             = prefixed []
                 [(InTab, ESuccess [Lit "✅ Found "; Val (dict_get o1 "total-hits" (JInt 0));
                                    Lit " hits"])]
                 (for_each (enumerate 1 (pre ++ bad :: l2))
                    (fun ih => render_hit lang (fst ih) (snd ih)) h)).
  { intros o1 l2 H1. unfold show_results.
    assert (Tr : py_truthy (JObj o1) = true)
      by (destruct o1; [discriminate H1 | reflexivity]).
    rewrite Tr. cbn [py_get]. rewrite run_bind_ret, run_bind_emit, run_bind_ret.
    assert (E : dict_get o1 "Ranked-objects" (JArr []) = JArr (pre ++ bad :: l2))
      by (unfold dict_get; rewrite H1; reflexivity).
    rewrite E.
    assert (N : negb (py_truthy (JArr (pre ++ bad :: l2))) = false)
      by (destruct pre; reflexivity).
    rewrite N. cbn [py_iter]. rewrite run_bind_ret. reflexivity. }
  rewrite (R o post Hl), (R o' post' Hl'), Ht, !enumerate_app. cbn [enumerate].
  destruct (for_each_stops (enumerate 1 pre)
              (enumerate (1 + Z.of_nat (List.length pre) + 1) post)
              (enumerate (1 + Z.of_nat (List.length pre) + 1) post')
              (1 + Z.of_nat (List.length pre), bad)
              (fun ih => render_hit lang (fst ih) (snd ih)) h) as [I (e & Ee)].
  - intros [i y] Hy. apply total_render_hit.
    rewrite forallb_forall in Hpre. apply Hpre. eapply In_enumerate. exact Hy.
  - apply fails_render_hit. exact Hbad.
  - rewrite I, res_prefixed. split; [reflexivity |].
    exists e. rewrite <- I. exact Ee.
Qed.

Lemma later_hits_not_rendered_witness :
  let good := JObj [("code", JStr "7606")] in
  let bad := JObj [("code", JStr "7607"); ("score", JStr "0.9")] in
  show_results "en" (JObj [("Ranked-objects", JArr [good; bad; good; good])]) []
  = show_results "en" (JObj [("Ranked-objects", JArr [good; bad])]) []
  /\ List.length
       (titles (ui (show_results "en"
                      (JObj [("Ranked-objects", JArr [good; bad; good; good])]) [])))
     = 2%nat.
Proof.
  cbv zeta. split; [| reflexivity].
  exact (proj1 (later_hits_not_rendered "en"
                  [("Ranked-objects",
                    JArr [JObj [("code", JStr "7606")];
                          JObj [("code", JStr "7607"); ("score", JStr "0.9")];
                          JObj [("code", JStr "7606")]; JObj [("code", JStr "7606")]])]
                  [("Ranked-objects",
                    JArr [JObj [("code", JStr "7606")];
                          JObj [("code", JStr "7607"); ("score", JStr "0.9")]])]
                  [JObj [("code", JStr "7606")]]
                  (JObj [("code", JStr "7607"); ("score", JStr "0.9")])
                  [JObj [("code", JStr "7606")]; JObj [("code", JStr "7606")]]
                  [] [] eq_refl eq_refl eq_refl eq_refl eq_refl)).
Defined.

(** ** Results without hits *)

(** X15: what a language tab and the organization tab show for a result
    without a list to render. A falsy result ([None] after a failed call, an
    empty object, an empty list, 0, an empty string) shows nothing at all. A
    non-empty object whose list is absent or falsy shows the banner and "No
    results found.". Any other truthy result that is no object raises
    [AttributeError] before anything is shown. *)
Theorem results_without_hits lang result h :
  (py_truthy result = false ->
   show_results lang result h = Out (Ok tt) [] []
   /\ show_organizations result h = Out (Ok tt) [] [])
  /\ (forall o,
        result = JObj o -> o <> [] ->
        (py_truthy (dict_get o "Ranked-objects" (JArr [])) = false ->
         show_results lang result h
         = Out (Ok tt) []
             [(InTab, ESuccess [Lit "✅ Found "; Val (dict_get o "total-hits" (JInt 0));
                                Lit " hits"]);
              (InTab, EInfo [Lit "No results found."])])
        /\ (py_truthy (dict_get o "results" (JArr [])) = false ->
            show_organizations result h
            = Out (Ok tt) []
                [(InTab, ESuccess [Lit "✅ Found ";
                                   Val (dict_get o "total-hits" (JInt 0));
                                   Lit " organizations"]);
                 (InTab, EInfo [Lit "No results found."])]))
  /\ (py_truthy result = true ->
      is_obj result = false ->
      let failure :=
        Out (Exc (mk_exn ExAttributeError
                    ("'" ++ py_type_name result ++ "' object has no attribute 'get'")))
          [] [] in
      show_results lang result h = failure /\ show_organizations result h = failure).
Proof.
  split; [| split].
  - intros T. unfold show_results, show_organizations. rewrite T. split; reflexivity.
  - intros o -> Ho.
    assert (T : py_truthy (JObj o) = true) by (destruct o; [contradiction | reflexivity]).
    split; intros F.
    + unfold show_results. rewrite T. cbn [py_get].
      rewrite run_bind_ret, run_bind_emit, run_bind_ret, F. reflexivity.
    + unfold show_organizations. rewrite T. cbn [py_get].
      rewrite run_bind_ret, run_bind_emit, run_bind_ret, F. reflexivity.
  - intros T O. unfold show_results, show_organizations. rewrite T.
    destruct result; try discriminate O; split; reflexivity.
Qed.

(** ** The content of a block *)

Lemma round_half_even_div_nearest n d :
  0 <= n -> 0 < d ->
  0 <= round_half_even_div n d /\ nearest_even n d (round_half_even_div n d).
Proof.
  intros Hn Hd. unfold round_half_even_div, nearest_even. cbv zeta.
  pose proof (Z.div_mod n d ltac:(lia)) as E.
  pose proof (Z.mod_pos_bound n d Hd) as B.
  pose proof (Z.div_pos n d Hn Hd) as Q.
  set (q := n / d) in *. set (r := n mod d) in *.
  assert (P : (q + 1) * d = d * q + d) by ring.
  assert (P' : q * d = d * q) by ring.
  destruct (d <? 2 * r) eqn:L; [apply Z.ltb_lt in L | apply Z.ltb_ge in L].
  - rewrite P. split; [lia |]. split; lia.
  - destruct (d =? 2 * r) eqn:T; [apply Z.eqb_eq in T | apply Z.eqb_neq in T].
    + destruct (Z.odd q) eqn:O.
      * rewrite P. split; [lia |]. split; [lia |].
        intros _. replace (q + 1) with (Z.succ q) by lia.
        rewrite Z.even_succ. exact O.
      * rewrite P'. split; [lia |]. split; [lia |].
        intros _. rewrite <- Z.negb_odd, O. reflexivity.
    + rewrite P'. split; [lia |]. split; lia.
Qed.

Lemma decimal_value_string_of_Z w : 0 <= w -> decimal_value (string_of_Z w) = Some w.
Proof.
  intros Hw. destruct w as [| p | p]; [reflexivity | | lia].
  unfold decimal_value, string_of_Z. cbn [Z.to_int NilZero.string_of_int].
  rewrite NilZero.usu.
  - cbn [option_map]. unfold Z.of_uint. rewrite DecimalPos.Unsigned.of_to. reflexivity.
  - intros N. pose proof (DecimalPos.Unsigned.of_to p) as T. rewrite N in T.
    discriminate T.
Qed.

Lemma decimal_value_pad4 n : 0 <= n < 10000 -> decimal_value (pad4 n) = Some n.
Proof.
  intros Hn.
  assert (A : forallb (fun k => match decimal_value (pad4 (Z.of_nat k)) with
                                | Some v => v =? Z.of_nat k
                                | None => false
                                end)
                (seq 0 (Z.to_nat 10000)) = true) by (vm_compute; reflexivity).
  rewrite forallb_forall in A.
  specialize (A (Z.to_nat n)). rewrite Z2Nat.id in A by lia.
  destruct (decimal_value (pad4 n)) as [v |].
  - f_equal. apply Z.eqb_eq, A, in_seq. lia.
  - discriminate A. apply in_seq. lia.
Qed.

(** [format(f, '.4f')] of a finite float, read back: the digits before the
    point and the four digits after it denote the count of ten-thousandths
    nearest to the value of the float, ties to even. *)
Lemma float_fixed4_value s m e :
  exists whole decimals w d,
    float_fixed4 (S754_finite s m e) = sign_str s ++ whole ++ "." ++ decimals
    /\ String.length decimals = 4%nat
    /\ decimal_value whole = Some w
    /\ decimal_value decimals = Some d
    /\ nearest_even (Z.pos m * 10000 * 2 ^ Z.max e 0) (2 ^ Z.max (- e) 0)
         (w * 10000 + d).
Proof.
  unfold float_fixed4, fixed4_digits.
  set (n := if 0 <=? e then Z.pos m * 2 ^ e * 10000
            else round_half_even_div (Z.pos m * 10000) (2 ^ (- e))).
  assert (Hn : 0 <= n
               /\ nearest_even (Z.pos m * 10000 * 2 ^ Z.max e 0) (2 ^ Z.max (- e) 0) n).
  { unfold n. destruct (0 <=? e) eqn:He; [apply Z.leb_le in He | apply Z.leb_gt in He].
    - rewrite (Z.max_l e 0), (Z.max_r (- e) 0) by lia.
      assert (0 < 2 ^ e) by (apply Z.pow_pos_nonneg; lia).
      split; [nia |]. unfold nearest_even. rewrite Z.pow_0_r.
      replace (Z.pos m * 10000 * 2 ^ e - Z.pos m * 2 ^ e * 10000 * 1) with 0 by ring.
      cbn. split; [lia | discriminate].
    - rewrite (Z.max_r e 0), (Z.max_l (- e) 0) by lia.
      rewrite Z.pow_0_r, Z.mul_1_r.
      apply round_half_even_div_nearest; [lia |].
      apply Z.pow_pos_nonneg; lia. }
  destruct Hn as [Hn N].
  exists (string_of_Z (n / 10000)), (pad4 (n mod 10000)), (n / 10000), (n mod 10000).
  pose proof (Z.mod_pos_bound n 10000 ltac:(lia)) as B.
  split; [reflexivity |].
  split; [apply pad4_length; exact B |].
  split; [apply decimal_value_string_of_Z; apply Z.div_pos; lia |].
  split; [apply decimal_value_pad4; exact B |].
  replace (n / 10000 * 10000 + n mod 10000) with n
    by (rewrite (Z.div_mod n 10000) at 1; lia).
  exact N.
Qed.

(** X16: the block of a hit has a score line exactly when the score in use,
    ['_score'] of the hit or else [score] of its record, is truthy and
    can be formatted. The line of a finite float holds its sign, digits, a
    point and four digits; read as a number, the digits before the point
    and the four after it are the count of ten-thousandths nearest to the
    value [m * 2^e] of the float, the even count when two are equally
    near. *)
Theorem score_line_shown_iff lang i ho so h :
  dict_get ho "_source" (JObj ho) = JObj so ->
  let score := hit_score ho so in
  (score_lines (ui (render_hit lang i (JObj ho) h)) = []
   <-> py_truthy score = false \/ formattable score = false)
  /\ (forall s m e,
        score = JFloat (S754_finite s m e) ->
        exists whole decimals w d,
          score_lines (ui (render_hit lang i (JObj ho) h))
          = [(InCol1 i,
              EMarkdown [Lit "**Score:** ";
                         Lit (sign_str s ++ whole ++ "." ++ decimals)])]
          /\ String.length decimals = 4%nat
          /\ decimal_value whole = Some w
          /\ decimal_value decimals = Some d
          /\ nearest_even (Z.pos m * 10000 * 2 ^ Z.max e 0) (2 ^ Z.max (- e) 0)
               (w * 10000 + d)).
Proof.
  intros Hs score. rewrite (score_line_iff_truthy lang i ho so h Hs). fold score.
  split.
  - destruct (py_truthy score); [| split; [left; reflexivity | reflexivity]].
    destruct (formattable score) eqn:F.
    + destruct (total_py_format_4f score F h) as (text & ws & E). rewrite E. cbn [res].
      split; [discriminate | intros [D | D]; discriminate D].
    + destruct (fails_py_format_4f score F h) as (e & E). rewrite E.
      split; [right; reflexivity | reflexivity].
  - intros s m e E. rewrite E. cbn [py_truthy py_format_4f ret res].
    destruct (float_fixed4_value s m e) as (whole & decimals & w & d & Ef & L & W & D & N).
    exists whole, decimals, w, d. rewrite Ef. repeat split; trivial; apply N.
Qed.

Lemma score_line_shown_iff_witness :
  score_lines (ui (render_hit "en" 1
                     (JObj [("code", JStr "7606");
                            ("score", JFloat (S754_finite false 1 (-5)))]) []))
  = [(InCol1 1, EMarkdown [Lit "**Score:** "; Lit "0.0312"])]
  /\ score_lines (ui (render_hit "en" 1
                        (JObj [("code", JStr "7606"); ("score", JInt 0)]) [])) = [].
Proof.
  pose proof (score_line_shown_iff "en" 1
                [("code", JStr "7606"); ("score", JInt 0)]
                [("code", JStr "7606"); ("score", JInt 0)] [] eq_refl) as B.
  cbv zeta in B. split.
  - reflexivity.
  - apply (proj2 (proj1 B)). left. reflexivity.
Defined.

(** X17: the block of a hit depends on the hit only through its ['_score']
    and through eight fields of its record: [code], the four names of the
    language of the tab, [Path], [tradings] and [score]. Two hits that agree
    on these are rendered alike, whatever else they carry. *)
Theorem block_reads_listed_fields lang i ho ho' so so' h :
  dict_get ho "_source" (JObj ho) = JObj so ->
  dict_get ho' "_source" (JObj ho') = JObj so' ->
  (forall k, In k (record_keys lang) -> dict_lookup k so = dict_lookup k so') ->
  dict_get ho "_score" JNull = dict_get ho' "_score" JNull ->
  render_hit lang i (JObj ho) h = render_hit lang i (JObj ho') h.
Proof. apply render_hit_reads. Qed.

Lemma block_reads_listed_fields_witness :
  render_hit "az" 1
    (JObj [("_source", JObj [("code", JStr "7606"); ("name_az_d4", JStr "Lövhələr")])])
    []
  = render_hit "az" 1
      (JObj [("_id", JStr "abc");
             ("_source", JObj [("name_en_d4", JStr "Plates"); ("code", JStr "7606");
                               ("name_az_d4", JStr "Lövhələr")])])
      [].
Proof.
  apply (block_reads_listed_fields "az" 1
           [("_source", JObj [("code", JStr "7606"); ("name_az_d4", JStr "Lövhələr")])]
           [("_id", JStr "abc");
            ("_source", JObj [("name_en_d4", JStr "Plates"); ("code", JStr "7606");
                              ("name_az_d4", JStr "Lövhələr")])]
           [("code", JStr "7606"); ("name_az_d4", JStr "Lövhələr")]
           [("name_en_d4", JStr "Plates"); ("code", JStr "7606");
            ("name_az_d4", JStr "Lövhələr")]
           [] eq_refl eq_refl); [| reflexivity].
  intros k Hk. cbn in Hk.
  repeat (destruct Hk as [<- | Hk]; [reflexivity |]). contradiction.
Defined.

(** One trading that is an object: its lines, and nothing else. *)
Lemma render_trading_run i t h :
  render_trading i (JObj t) h = Out (Ok tt) [] (trading_lines i t).
Proof.
  unfold render_trading, trading_lines. cbn [py_get].
  rewrite !run_bind_ret, run_bind_emit, run_bind_ret.
  destruct (py_truthy (dict_get t "inVehicleId" JNull)).
  - rewrite run_bind_emit, run_bind_ret.
    destruct (py_truthy (dict_get t "outVehicleId" JNull)); reflexivity.
  - rewrite !run_bind_ret.
    destruct (py_truthy (dict_get t "outVehicleId" JNull)); reflexivity.
Qed.

Lemma for_each_trading_run i l h :
  forallb is_obj l = true ->
  for_each l (render_trading i) h
  = Out (Ok tt) [] (flat_map (fun t => trading_lines i (fields_of t)) l).
Proof.
  induction l as [| t l IH]; cbn [forallb for_each flat_map]; [reflexivity |].
  intros Hl. apply andb_prop in Hl. destruct Hl as [Ht Hl].
  destruct t; try discriminate Ht.
  unfold bind. rewrite render_trading_run. cbn [rev app]. rewrite (IH Hl). reflexivity.
Qed.

Lemma second_column_trading_lines i l :
  flat_map second_column_of (flat_map (fun t => trading_lines i (fields_of t)) l)
  = flat_map (fun t => trading_lines i (fields_of t)) l.
Proof.
  induction l as [| t l IH]; cbn [flat_map]; [reflexivity |].
  rewrite flat_map_app, IH. f_equal.
  unfold trading_lines.
  destruct (py_truthy (dict_get (fields_of t) "inVehicleId" JNull));
    destruct (py_truthy (dict_get (fields_of t) "outVehicleId" JNull)); reflexivity.
Qed.

(** X18: the second column of the block of a hit that can be rendered holds
    its tradings and nothing else: "No trading info" when [tradings] is
    absent or falsy; otherwise the heading and, for each trading in order,
    its name and type ("N/A" for a missing one), then its in and out
    vehicles, each only when it is truthy. *)
Theorem tradings_column lang i hit h :
  hit_ok hit = true ->
  flat_map second_column_of (ui (render_hit lang i hit h))
  = match dict_get (record_of hit) "tradings" (JArr []) with
    | JArr (t :: ts) =>
        (InCol2 i, EMarkdown [Lit "**Tradings:**"])
        :: flat_map (fun t => trading_lines i (fields_of t)) (t :: ts)
    | _ => [(InCol2 i, EMarkdown [Lit "*No trading info*"])]
    end.
Proof.
  destruct hit as [| | | | | | ho]; try discriminate. cbn [hit_ok].
  destruct (dict_get ho "_source" (JObj ho)) as [| | | | | | so] eqn:Hs;
    try discriminate.
  intros Hok. apply andb_prop in Hok. destruct Hok as [Hscore Htr].
  unfold record_of. rewrite Hs.
  unfold render_hit. cbn [py_get]. rewrite run_bind_ret, Hs. cbn [py_get].
  repeat (rewrite run_bind_ret || rewrite run_bind_emit).
  assert (E : forall k : json -> M unit,
             bind (if py_truthy (dict_get ho "_score" JNull)
                   then ret (dict_get ho "_score" JNull)
                   else ret (dict_get so "score" JNull)) k h
             = k (hit_score ho so) h).
  { intros k. unfold hit_score. cbv zeta.
    destruct (py_truthy (dict_get ho "_score" JNull)); apply run_bind_ret. }
  rewrite E. clear E.
  unfold bind at 1.
  destruct (total_score_block (InCol1 i) (hit_score ho so) Hscore h) as ([] & ws & E).
  assert (Q : quiet second_column_of
                (if py_truthy (hit_score ho so) then
                   text <- py_format_4f (hit_score ho so) ;;
                   emit (InCol1 i) (EMarkdown [Lit "**Score:** "; Lit text])
                 else ret tt)) by auto 20 with quiet.
  destruct (Q h) as [_ V]. rewrite E in V |- *. cbn [ui] in V. cbn [rev app].
  repeat (rewrite run_bind_ret || rewrite run_bind_emit).
  rewrite !ui_prefixed, !flat_map_app, V.
  cbn [flat_map second_column_of fst app].
  unfold tradings_ok in Htr.
  destruct (py_truthy (dict_get so "tradings" (JArr []))) eqn:T.
  - cbn [negb orb] in Htr.
    destruct (dict_get so "tradings" (JArr [])) as [| | | | | l |]; try discriminate Htr.
    destruct l as [| t ts]; [discriminate T |].
    rewrite run_bind_emit. cbn [py_iter]. rewrite run_bind_ret, ui_prefixed.
    rewrite (for_each_trading_run i (t :: ts) h Htr). cbn [ui].
    rewrite flat_map_app, second_column_trading_lines. reflexivity.
  - destruct (dict_get so "tradings" (JArr [])) as [| | | | | [| t ts] |];
      try reflexivity; discriminate T.
Qed.

Lemma tradings_column_witness :
  flat_map second_column_of
    (ui (render_hit "en" 1
           (JObj [("code", JStr "7606");
                  ("tradings",
                   JArr [JObj [("tradeName", JStr "Export"); ("outVehicleId", JInt 40)];
                         JObj [("tradeType", JStr "IM"); ("inVehicleId", JInt 0)]])])
           []))
  = [(InCol2 1, EMarkdown [Lit "**Tradings:**"]);
     (InCol2 1, EWrite [Lit "• "; Val (JStr "Export"); Lit " ("; Val (JStr "N/A"); Lit ")"]);
     (InCol2 1, EWrite [Lit "  Out: Vehicle "; Val (JInt 40)]);
     (InCol2 1, EWrite [Lit "• "; Val (JStr "N/A"); Lit " ("; Val (JStr "IM"); Lit ")"])].
Proof.
  exact (tradings_column "en" 1
           (JObj [("code", JStr "7606");
                  ("tradings",
                   JArr [JObj [("tradeName", JStr "Export"); ("outVehicleId", JInt 40)];
                         JObj [("tradeType", JStr "IM"); ("inVehicleId", JInt 0)]])])
           [] eq_refl).
Defined.

(** X19: the block of an organization shows its [additional_info], as the
    response gave it, exactly when that value is truthy and the score before
    it is falsy or can be formatted; an empty object or list is not shown,
    and a score that cannot be formatted hides it. *)
Theorem org_additional_info_shown i oo h :
  jsons (ui (render_org i (JObj oo) h))
  = if org_ok (JObj oo) && py_truthy (dict_get oo "additional_info" JNull)
    then [dict_get oo "additional_info" JNull]
    else [].
Proof.
  unfold render_org. cbn [py_get org_ok].
  repeat (rewrite run_bind_ret || rewrite run_bind_emit).
  rewrite !ui_prefixed. unfold jsons. rewrite !flat_map_app.
  cbn [flat_map json_of snd app].
  assert (Q : quiet json_of
                (if py_truthy (dict_get oo "score" JNull) then
                   text <- py_format_4f (dict_get oo "score" JNull) ;;
                   emit (InCol2 i) (EMarkdown [Lit "**Score:** "; Lit text])
                 else ret tt)) by auto 20 with quiet.
  destruct (Q h) as [_ V].
  unfold bind at 1.
  destruct (score_ok (dict_get oo "score" JNull)) eqn:S.
  - destruct (total_score_block (InCol2 i) _ S h) as ([] & ws & E).
    rewrite E in V |- *. cbn [ui] in V. cbn [rev app andb].
    rewrite run_bind_ret, ui_prefixed, flat_map_app, V.
    destruct (py_truthy (dict_get oo "additional_info" JNull)); [| reflexivity].
    rewrite run_bind_emit, run_bind_ret. reflexivity.
  - destruct (fails_score_block (InCol2 i) _ S h) as (e & E).
    match type of E with
    | res ?run = _ => destruct run as [[[] | e'] cs ws]
    end; cbn in E; [discriminate E |].
    cbn [ui] in V |- *. rewrite V. reflexivity.
Qed.
